(** * base_firmware/extract.py: prerequisite resolution and extraction pipeline

    A shallow embedding of [src/base_firmware/extract.py].  The script is a
    sequence of filesystem tests, [os.chdir] calls and shell-outs, so the
    embedding is a state-and-exception monad over a [world] that holds the
    filesystem tree, the process's working directory, the console log and
    the trace of the commands handed to [subprocess.call].

    Modelling conventions:
    - a path is the list of its components from the filesystem root (every
      path the module builds is absolute: [PROJECT_ROOT] comes from
      [os.path.abspath], [TEMP_DIR] from [tempfile.mkdtemp]);
    - the filesystem is one tree; what permissions, special files and mount
      points do to [os.rename], [shutil.copytree] and [shutil.rmtree] is
      decided by a [host], which the properties quantify over;
    - the external programs ([humidify], [unsquashfs], [chown], [svn],
      [configure], [make]) are one opaque function [shell] from the command
      line, the working directory and the filesystem to a new filesystem: a
      child process cannot change the working directory of its parent, and
      the script never looks at an exit status;
    - the network and the zip parser are the opaque [urlopen] and
      [zip_members]. *)

From stdpp Require Import gmap strings list pretty.

#[local] Set Warnings "-register-all".
#[local] Open Scope string_scope.

(** ** Paths *)

Definition path := list string.

(** [os.path.join base rel] for a relative [rel], already split at the
    separators. *)
Definition os_path_join (base rel : path) : path := app base rel.

Fixpoint path_str_aux (p : path) : string :=
  match p with
  | [] => EmptyString
  | x :: p' => "/" ++ x ++ path_str_aux p'
  end.

(** The text of an absolute path. *)
Definition path_str (p : path) : string :=
  match p with
  | [] => "/"
  | _ => path_str_aux p
  end.

(** [repr] of a [str] (Python 2.7): double quotes when the text has a
    single quote and no double quote, single quotes otherwise; the quote
    in use and the backslash are escaped, tab, newline and carriage return
    are written [\t], [\n], [\r], and every other byte outside the printable
    ASCII range as [\xNN]. *)
Definition chr (n : N) : Ascii.ascii := Ascii.ascii_of_N n.
Definition single_quote : Ascii.ascii := chr 39.
Definition double_quote : Ascii.ascii := chr 34.
Definition backslash : Ascii.ascii := chr 92.

Definition hex_digit (n : N) : Ascii.ascii :=
  if (n <? 10)%N then chr (48 + n) else chr (87 + n).

Fixpoint has_char (c : Ascii.ascii) (s : string) : bool :=
  match s with
  | EmptyString => false
  | String c' s' => Ascii.eqb c c' || has_char c s'
  end.

Fixpoint repr_chars (quote : Ascii.ascii) (s : string) : string :=
  match s with
  | EmptyString => EmptyString
  | String c s' =>
      let n := Ascii.N_of_ascii c in
      (if Ascii.eqb c quote || Ascii.eqb c backslash then
         String backslash (String c EmptyString)
       else if (n =? 9)%N then String backslash "t"
       else if (n =? 10)%N then String backslash "n"
       else if (n =? 13)%N then String backslash "r"
       else if (n <? 32)%N || (127 <=? n)%N then
         String backslash
           (String (chr 120)
              (String (hex_digit (n / 16)) (String (hex_digit (n mod 16)) EmptyString)))
       else String c EmptyString)
      ++ repr_chars quote s'
  end.

Definition py_repr (s : string) : string :=
  let quote :=
    if has_char single_quote s && negb (has_char double_quote s)
    then double_quote else single_quote in
  String quote (repr_chars quote s ++ String quote EmptyString).

(** [shutil._basename]. *)
Definition basename (p : path) : string := List.last p EmptyString.

(** [shutil._destinsrc src dst]: [dst] lies in the tree of [src]. *)
Definition destinsrc (src dst : path) : bool := bool_decide (src `prefix_of` dst).

(** ** The filesystem tree *)

Inductive node :=
| File (data : string)
| Dir (entries : gmap string node).

Fixpoint lookup_path (p : path) (t : node) : option node :=
  match p with
  | [] => Some t
  | x :: p' =>
      match t with
      | Dir es => match es !! x with
                  | Some c => lookup_path p' c
                  | None => None
                  end
      | File _ => None
      end
  end.

Definition exists_at (p : path) (t : node) : bool :=
  match lookup_path p t with Some _ => true | None => false end.

Definition isfile (p : path) (t : node) : bool :=
  match lookup_path p t with Some (File _) => true | _ => false end.

Definition isdir (p : path) (t : node) : bool :=
  match lookup_path p t with Some (Dir _) => true | _ => false end.

(** Bind the name [p] to the node [n]; the parent of [p] has to be a
    directory, and the root cannot be rebound. *)
Fixpoint put (p : path) (n : node) (t : node) : option node :=
  match p with
  | [] => None
  | x :: p' =>
      match t with
      | Dir es =>
          match p' with
          | [] => Some (Dir (<[x := n]> es))
          | _ => match es !! x with
                 | Some c => match put p' n c with
                             | Some c' => Some (Dir (<[x := c']> es))
                             | None => None
                             end
                 | None => None
                 end
          end
      | File _ => None
      end
  end.

(** Unbind the name [p] (with everything below it); nothing happens when
    [p] names nothing. *)
Fixpoint remove (p : path) (t : node) : node :=
  match p with
  | [] => t
  | x :: p' =>
      match t with
      | Dir es =>
          match p' with
          | [] => Dir (delete x es)
          | _ => match es !! x with
                 | Some c => Dir (<[x := remove p' c]> es)
                 | None => t
                 end
          end
      | File _ => t
      end
  end.

Fixpoint mktree (p : path) : node :=
  match p with
  | [] => Dir ∅
  | x :: p' => Dir {[ x := mktree p' ]}
  end.

(** [os.makedirs]: creates the leaf and the missing ancestors; [None] when
    the leaf exists already or an ancestor is a file. *)
Fixpoint makedirs (p : path) (t : node) : option node :=
  match p with
  | [] => None
  | x :: p' =>
      match t with
      | Dir es =>
          match es !! x with
          | Some c => match makedirs p' c with
                      | Some c' => Some (Dir (<[x := c']> es))
                      | None => None
                      end
          | None => Some (Dir (<[x := mktree p']> es))
          end
      | File _ => None
      end
  end.

Definition is_empty_dir (n : node) : bool :=
  match n with
  | Dir es => bool_decide (dom es = ∅)
  | File _ => false
  end.

(** [os.rename src dst] on one filesystem (POSIX [rename(2)]); [None] is
    an [OSError]. *)
Definition rename (src dst : path) (t : node) : option node :=
  match lookup_path src t with
  | None => None
  | Some n =>
      if bool_decide (src = dst) then Some t
      else if destinsrc src dst then None
      else match lookup_path dst t, n with
           | None, _ => put dst n (remove src t)
           | Some (File _), File _ => put dst n (remove src t)
           | Some (Dir es), Dir _ =>
               if is_empty_dir (Dir es) then put dst n (remove src t) else None
           | Some (File _), Dir _ => None
           | Some (Dir _), File _ => None
           end
  end.

(** ** Values, exceptions, the world *)

(** The Python values a caller can pass as the [destroy] flag. *)
Inductive pyval :=
| PyBool (b : bool)
| PyInt (z : Z)
| PyNone.

(** [v is False]. *)
Definition is_False (v : pyval) : bool :=
  match v with
  | PyBool false => true
  | _ => false
  end.

Inductive exn :=
| MissingPrerequisite (what : path)           (* the module's own class *)
| IOError (msg : string)                      (* IOError(msg) *)
| IOError_file (filename : path)              (* IOError from open() *)
| OSError (filename : path)                   (* raised by os.* *)
| ShutilError (msg : string)                  (* shutil.Error(msg) *)
| CopytreeError (src dst : path)              (* shutil.Error(errors) of copytree *)
| URLError (url : string)
| BadZipfile
| KeyError (name : string).

(** The three logging levels in use, and [TRACEBACK] for what
    [traceback.print_exc] writes to the same stream. *)
Inductive level := DEBUG | INFO | ERROR | TRACEBACK.

Record world := World {
  fs : node;                         (* the filesystem *)
  cwd : path;                        (* os.getcwd() *)
  euid : N;                          (* os.geteuid() *)
  egid : N;                          (* os.getegid() *)
  log : list (level * string);       (* what LOG wrote, oldest first *)
  calls : list (string * path);      (* subprocess.call: command, directory *)
  fetched : list string              (* urllib2.urlopen: URLs, oldest first *)
}.

Definition set_fs (t : node) (w : world) : world :=
  World t (cwd w) (euid w) (egid w) (log w) (calls w) (fetched w).
Definition set_cwd (p : path) (w : world) : world :=
  World (fs w) p (euid w) (egid w) (log w) (calls w) (fetched w).
Definition add_log (e : level * string) (w : world) : world :=
  World (fs w) (cwd w) (euid w) (egid w) (log w ++ [e]) (calls w) (fetched w).
Definition add_call (c : string * path) (w : world) : world :=
  World (fs w) (cwd w) (euid w) (egid w) (log w) (calls w ++ [c]) (fetched w).
Definition add_fetched (u : string) (w : world) : world :=
  World (fs w) (cwd w) (euid w) (egid w) (log w) (calls w) (fetched w ++ [u]).

(** ** The monad: state and exceptions

    An exception keeps the state reached when it was raised. *)

Inductive result (A : Type) :=
| Return (a : A)
| Raise (e : exn).
Arguments Return {A} a.
Arguments Raise {A} e.

Definition M (A : Type) : Type := world -> result A * world.

Definition ret {A} (a : A) : M A := fun w => (Return a, w).
Definition raise {A} (e : exn) : M A := fun w => (Raise e, w).
Definition bind {A B} (m : M A) (k : A -> M B) : M B :=
  fun w => match m w with
           | (Return a, w') => k a w'
           | (Raise e, w') => (Raise e, w')
           end.

Notation "'let*' x ':=' m 'in' k" := (bind m (fun x => k))
  (at level 10, x name, m at level 100, k at level 200, only parsing).
Notation "m ;; k" := (bind m (fun _ => k))
  (at level 100, k at level 200, right associativity, only parsing).

(** [try: m except MissingPrerequisite, what: h what]. *)
Definition try_except_MissingPrerequisite {A} (m : M A) (h : path -> M A) : M A :=
  fun w => match m w with
           | (Raise (MissingPrerequisite what), w') => h what w'
           | r => r
           end.

(** A bare [raise] inside the handler of [what]. *)
Definition reraise {A} (what : path) : M A := raise (MissingPrerequisite what).

(** ** The host

    What the machine decides for three library calls, beyond the shape of
    the tree: the device a path lives on ([os.rename] does not cross
    devices); for a [shutil.copytree] of the directory at a path, the
    entries that got copied when some entry could not be
    ([None]: all of them could); for a [shutil.rmtree] of the directory at
    a path, the entries left behind when something could not be deleted
    ([None]: nothing is left), with [ignore_errors] as first argument. *)
Record host := Host {
  device_of : path -> N;
  copytree_partial : path -> gmap string node -> option (gmap string node);
  rmtree_left : bool -> path -> gmap string node -> option (gmap string node)
}.

(** Put the node [n] where [p] is. *)
Definition graft (p : path) (n : node) (t : node) : node :=
  match p with
  | [] => n
  | _ => default t (put p n t)
  end.

(** ** Operating-system and library calls *)

Definition LOG (l : level) (msg : string) : M unit :=
  fun w => (Return tt, add_log (l, msg) w).
Definition LOG_debug : string -> M unit := LOG DEBUG.
Definition LOG_info : string -> M unit := LOG INFO.
Definition LOG_error : string -> M unit := LOG ERROR.

Definition os_path_isfile (p : path) : M bool :=
  fun w => (Return (isfile p (fs w)), w).
Definition os_path_isdir (p : path) : M bool :=
  fun w => (Return (isdir p (fs w)), w).
Definition os_path_exists (p : path) : M bool :=
  fun w => (Return (exists_at p (fs w)), w).
Definition os_getcwd : M path := fun w => (Return (cwd w), w).
Definition os_geteuid : M N := fun w => (Return (euid w), w).
Definition os_getegid : M N := fun w => (Return (egid w), w).

Definition os_chdir (p : path) : M unit :=
  fun w => if isdir p (fs w) then (Return tt, set_cwd p w)
           else (Raise (OSError p), w).

Definition os_makedirs (p : path) : M unit :=
  fun w => match makedirs p (fs w) with
           | Some t => (Return tt, set_fs t w)
           | None => (Raise (OSError p), w)
           end.

(** [os.rename]: [EXDEV] across devices. *)
Definition os_rename (h : host) (src dst : path) : M unit :=
  fun w => if negb (device_of h src =? device_of h dst)%N then
             (Raise (OSError src), w)
           else match rename src dst (fs w) with
                | Some t => (Return tt, set_fs t w)
                | None => (Raise (OSError src), w)
                end.

Definition os_unlink (p : path) : M unit :=
  fun w => if isfile p (fs w) then (Return tt, set_fs (remove p (fs w)) w)
           else (Raise (OSError p), w).

(** [open(p).read()]. *)
Definition read_file (p : path) : M string :=
  fun w => match lookup_path p (fs w) with
           | Some (File data) => (Return data, w)
           | _ => (Raise (IOError_file p), w)
           end.

(** [open(p, 'wb').write(data)]. *)
Definition write_file (p : path) (data : string) : M unit :=
  fun w => if isdir p (fs w) then (Raise (IOError_file p), w)
           else match put p (File data) (fs w) with
                | Some t => (Return tt, set_fs t w)
                | None => (Raise (IOError_file p), w)
                end.

(** What [shutil.rmtree] leaves of the directory at [p] with entries
    [es]: nothing when everything can be deleted ([None] from the host),
    else the directory with the entries the host names; the root directory
    itself always stays. *)
Definition rmtree_result (h : host) (ignore_errors : bool) (p : path)
    (es : gmap string node) (t : node) : option node :=
  match rmtree_left h ignore_errors p es, p with
  | None, [] => Some (Dir ∅)
  | None, _ => None
  | Some es', _ => Some (graft p (Dir es') t)
  end.

(** [shutil.rmtree(p)]: raises at the first entry or directory that cannot
    be deleted, with what is left in place. *)
Definition shutil_rmtree (h : host) (p : path) : M unit :=
  fun w => match lookup_path p (fs w) with
           | Some (Dir es) =>
               match rmtree_result h false p es (fs w) with
               | None => (Return tt, set_fs (remove p (fs w)) w)
               | Some t => (Raise (OSError p), set_fs t w)
               end
           | _ => (Raise (OSError p), w)
           end.

(** [shutil.rmtree(p, ignore_errors=True)]: deletes what can be deleted
    and never raises; a [p] that is no directory is left alone. *)
Definition shutil_rmtree_ignore_errors (h : host) (p : path) : M unit :=
  fun w => match lookup_path p (fs w) with
           | Some (Dir es) =>
               match rmtree_result h true p es (fs w) with
               | None => (Return tt, set_fs (remove p (fs w)) w)
               | Some t => (Return tt, set_fs t w)
               end
           | _ => (Return tt, w)
           end.

(** [shutil.copytree src dst]: [dst] must not exist and is made first,
    with its missing ancestors; the entries are copied one by one, and
    [shutil.Error] is raised at the end when some could not be, with the
    others in place. *)
Definition shutil_copytree (h : host) (src dst : path) : M unit :=
  fun w => match lookup_path src (fs w) with
           | Some (Dir es) =>
               match makedirs dst (fs w) with
               | Some t =>
                   match copytree_partial h src es with
                   | None => (Return tt, set_fs (graft dst (Dir es) t) w)
                   | Some es' =>
                       (Raise (CopytreeError src dst),
                        set_fs (graft dst (Dir es') t) w)
                   end
               | None => (Raise (OSError dst), w)
               end
           | _ => (Raise (OSError src), w)
           end.

(** [shutil._samefile]: without links, the same existing path. *)
Definition samefile (src dst : path) : M bool :=
  fun w => (Return (bool_decide (src = dst) && exists_at src (fs w)), w).

(** [shutil.copy2 src dst]. *)
Definition shutil_copy2 (src dst : path) : M unit :=
  let* d := os_path_isdir dst in
  let dst' := if d then os_path_join dst [basename src] else dst in
  let* same := samefile src dst' in
  if same then
    raise (ShutilError ("`" ++ path_str src ++ "` and `" ++ path_str dst'
                        ++ "` are the same file"))
  else
    let* data := read_file src in
    write_file dst' data.

Definition try_except_OSError {A} (m : M A) (h : M A) : M A :=
  fun w => match m w with
           | (Raise (OSError _), w') => h w'
           | r => r
           end.

(** [shutil.move src dst] (Python 2.7). *)
Definition shutil_move (h : host) (src dst : path) : M unit :=
  let* d := os_path_isdir dst in
  let* same := samefile src dst in
  if d && same then
    os_rename h src dst
  else
    let real_dst := if d then os_path_join dst [basename src] else dst in
    let* e := os_path_exists real_dst in
    if d && e then
      raise (ShutilError ("Destination path '" ++ path_str real_dst
                          ++ "' already exists"))
    else
      try_except_OSError (os_rename h src real_dst)
        (let* sd := os_path_isdir src in
         if sd then
           if destinsrc src dst then
             raise (ShutilError ("Cannot move a directory '" ++ path_str src
                                 ++ "' into itself '" ++ path_str dst ++ "'."))
           else
             shutil_copytree h src real_dst;;
             shutil_rmtree h src
         else
           shutil_copy2 src real_dst;;
           os_unlink src).

Definition os_path_dirname (p : path) : path := removelast p.

(** The class an exception is printed under. *)
Definition exn_class (e : exn) : string :=
  match e with
  | MissingPrerequisite _ => "MissingPrerequisite"
  | IOError _ | IOError_file _ => "IOError"
  | OSError _ => "OSError"
  | ShutilError _ | CopytreeError _ _ => "Error"
  | URLError _ => "URLError"
  | BadZipfile => "BadZipfile"
  | KeyError _ => "KeyError"
  end.

(** [traceback.print_exc(file=sys.stdout)]; of the text, the class of the
    exception is kept. *)
Definition traceback_print_exc (e : exn) : M unit :=
  fun w => (Return tt, add_log (TRACEBACK, exn_class e) w).

(** ** The module *)

Section Extract.

(** [PROJECT_ROOT = os.path.abspath(".")] and [TEMP_DIR = tempfile.mkdtemp()],
    both fixed when the module is loaded. *)
Variable PROJECT_ROOT : path.
Variable TEMP_DIR : path.

(** The effect of a shell command, run in a directory, on the filesystem. *)
Variable shell : string -> path -> node -> node.

(** The body served for a URL, if any. *)
Variable urlopen : string -> option string.

(** The members of a zip archive, if the bytes are one. *)
Variable zip_members : string -> option (gmap string string).

(** The machine the module runs on. *)
Variable hst : host.

Definition EXTRACTED_ROOT : path := os_path_join PROJECT_ROOT ["extracted_root"].

(** [subprocess.call(cmd, shell=True)]; the exit status is dropped by
    every caller. *)
Definition call (cmd : string) : M unit :=
  fun w => (Return tt, set_fs (shell cmd (cwd w) (fs w)) (add_call (cmd, cwd w) w)).

(** [urllib2.urlopen(url).read()]. *)
Definition urllib2_urlopen (url : string) : M string :=
  fun w => match urlopen url with
           | Some body => (Return body, add_fetched url w)
           | None => (Raise (URLError url), add_fetched url w)
           end.

(** [zipfile.ZipFile(archive).extract(member, dest_dir)]. *)
Definition zipfile_extract (archive : path) (member : string) (dest_dir : path) : M unit :=
  let* bytes := read_file archive in
  match zip_members bytes with
  | None => raise BadZipfile
  | Some ms =>
      match ms !! member with
      | None => raise (KeyError member)
      | Some data =>
          let* e := os_path_exists dest_dir in
          (if e then ret tt else os_makedirs dest_dir);;
          write_file (os_path_join dest_dir [member]) data
      end
  end.

Definition default_source_url : string :=
  "http://www.humax-digital.de/products/hdpvr.zip".

(** The three canonical locations, the [filename] of each [prereq_*]. *)
Definition hmx_filename : path :=
  os_path_join PROJECT_ROOT ["original_firmware"; "hdpvr.hmx"].
Definition humidify_filename : path :=
  os_path_join PROJECT_ROOT ["bin"; "humidify-linux-i386"].
Definition unsquashfs_filename : path :=
  os_path_join PROJECT_ROOT
    ["firmware-mod-kit-read-only"; "trunk"; "src"; "squashfs-3.0"; "unsquashfs"].

(** Make sure that a Humax iCord HD firmware archive is available. *)
Definition prereq_hmx (source_url : string) : M path :=
  let filename := hmx_filename in
  LOG_info ("HMX: " ++ path_str filename);;
  let* present := os_path_isfile filename in
  if present then
    LOG_debug "[HMX] existing";;
    ret filename
  else
    let dest_dir := os_path_dirname filename in
    let zip_source := os_path_join TEMP_DIR ["hdpvr.zip"] in
    let* d := os_path_isdir dest_dir in
    (if negb d then
       LOG_debug ("creating path: " ++ path_str dest_dir);;
       os_makedirs dest_dir
     else ret tt);;
    let* body := urllib2_urlopen source_url in
    write_file zip_source body;;
    zipfile_extract zip_source "hdpvr.hmx" dest_dir;;
    let* present := os_path_isfile filename in
    if present then
      LOG_debug "[HMX] fetched";;
      ret filename
    else
      raise (MissingPrerequisite filename).

(** Make sure that the humidify tool is available. *)
Definition prereq_humidify : M path :=
  let filename := humidify_filename in
  let source_urls :=
    ["http://hummy.tv/forum/threads/humidify-hdf-file-utility.235/";
     "http://www20.zippyshare.com/v/27034196/file.html"] in
  LOG_info ("HUMIDIFY: " ++ path_str filename);;
  let* present := os_path_isfile filename in
  if present then
    LOG_debug "existing";;
    ret filename
  else
    LOG_info "Please visit following URLs to retrieve humidify tool:";;
    LOG_info (String.concat ", " source_urls);;
    raise (MissingPrerequisite filename).

(** [for (cmd, pwd) in commands: os.chdir(pwd); call(cmd, shell=True)]. *)
Fixpoint run_commands (commands : list (string * path)) : M unit :=
  match commands with
  | [] => ret tt
  | (cmd, pwd) :: rest =>
      os_chdir pwd;;
      call cmd;;
      run_commands rest
  end.

Definition unsquashfs_commands : list (string * path) :=
  [("svn checkout http://firmware-mod-kit.googlecode.com/svn/ firmware-mod-kit-read-only",
    PROJECT_ROOT);
   ("./configure",
    os_path_join PROJECT_ROOT ["firmware-mod-kit-read-only"; "trunk"; "src"]);
   ("make",
    os_path_join PROJECT_ROOT ["firmware-mod-kit-read-only"; "trunk"; "src"])].

(** Make sure an unsquashfs (provided by firmware-mod-kit) is available. *)
Definition prereq_unsquashfs : M path :=
  let filename := unsquashfs_filename in
  LOG_info ("UNSQUASHFS: " ++ path_str filename);;
  let* present := os_path_isfile filename in
  if present then
    LOG_debug "existing";;
    ret filename
  else
    (* save current working dir *)
    let* old_cwd := os_getcwd in
    run_commands unsquashfs_commands;;
    (* restore working dir *)
    os_chdir old_cwd;;
    let* present := os_path_isfile filename in
    if present then
      LOG_debug "created";;
      ret filename
    else
      raise (MissingPrerequisite filename).

Definition raw_filename : path := os_path_join TEMP_DIR ["3.hdfbin-3-700000.raw"].
Definition squashfs_root : path := os_path_join TEMP_DIR ["squashfs-root"].

Definition humidify_cmd (humidify hmx_file : path) : string :=
  path_str humidify ++ " -x " ++ path_str hmx_file.
Definition unsquashfs_cmd (unsquashfs : path) : string :=
  "sudo " ++ path_str unsquashfs ++ " -n " ++ path_str raw_filename.
Definition chown_cmd (my_uid my_gid : N) : string :=
  "sudo chown " ++ pretty my_uid ++ ":" ++ pretty my_gid ++ " -R "
  ++ path_str squashfs_root.

(** Lines 172-178 of [extract]: the policy for an existing
    [extracted_root]. *)
Definition check_destination (extracted_root : path) (destroy : pyval) : M unit :=
  let* d := os_path_isdir extracted_root in
  if d && is_False destroy then
    LOG_error ("extracted_root dir " ++ py_repr (path_str extracted_root)
               ++ " exists and destroy=False");;
    raise (IOError ("Existing: " ++ path_str extracted_root))
  else
    let* d := os_path_isdir extracted_root in
    if d then shutil_rmtree hst extracted_root else ret tt.

(** Lines 180-194: STEP 1, skipped when the raw image is there already. *)
Definition step1_unpack (hmx_file humidify : path) : M unit :=
  let cmd := humidify_cmd humidify hmx_file in
  LOG_info ("STEP 1: Extract hmx " ++ py_repr (path_str hmx_file));;
  LOG_debug (" cmd     : " ++ cmd);;
  LOG_debug (" expected: " ++ path_str raw_filename);;
  let* present := os_path_isfile raw_filename in
  if negb present then
    os_chdir TEMP_DIR;;
    call cmd;;
    let* present := os_path_isfile raw_filename in
    if negb present then raise (MissingPrerequisite raw_filename) else ret tt
  else
    LOG_debug "skipped".

(** Lines 196-204: STEP 2. *)
Definition step2_unsquashfs (unsquashfs : path) : M unit :=
  LOG_info "STEP 2: [sudo] unsquashfs";;
  let cmd := unsquashfs_cmd unsquashfs in
  os_chdir TEMP_DIR;;
  call cmd;;
  let* d := os_path_isdir squashfs_root in
  if negb d then raise (MissingPrerequisite squashfs_root) else ret tt.

(** Lines 206-210: STEP 3. *)
Definition step3_chown : M unit :=
  LOG_info "STEP 3: [sudo] chown";;
  let* my_gid := os_getegid in
  let* my_uid := os_geteuid in
  let cmd := chown_cmd my_uid my_gid in
  call cmd.

(** Lines 212-219: STEP 4. *)
Definition step4_move (extracted_root : path) : M path :=
  LOG_info "STEP 4: move tree";;
  LOG_debug (" " ++ path_str squashfs_root ++ " -> " ++ path_str extracted_root);;
  shutil_move hst squashfs_root extracted_root;;
  let* d := os_path_isdir extracted_root in
  if negb d then raise (MissingPrerequisite extracted_root)
  else ret extracted_root.

(** Lines 180-219 of [extract]: the four steps in order. *)
Definition pipeline (hmx_file unsquashfs humidify extracted_root : path) : M path :=
  step1_unpack hmx_file humidify;;
  step2_unsquashfs unsquashfs;;
  step3_chown;;
  step4_move extracted_root.

(** Extract the root filesystem of [hmx_file] to [extracted_root]. *)
Definition extract (hmx_file unsquashfs humidify extracted_root : path)
    (destroy : pyval) : M path :=
  check_destination extracted_root destroy;;
  pipeline hmx_file unsquashfs humidify extracted_root.

(** Make sure that needed executables are available. *)
Definition prereq_programs : M (path * path * path) :=
  let* r :=
    try_except_MissingPrerequisite
      (let* hmx_file := prereq_hmx default_source_url in
       let* unsquashfs := prereq_unsquashfs in
       let* humidify := prereq_humidify in
       ret (hmx_file, unsquashfs, humidify))
      (fun what =>
         LOG_error ("Missing prerequisite: " ++ path_str what);;
         reraise what) in
  ret r.

(** Extract the root filesystem of a hmx file; [None] is Python's [None],
    returned when the function runs off its end. *)
Definition run_extraction : M (option path) :=
  try_except_MissingPrerequisite
    (let* programs := prereq_programs in
     let '(hmx_file, unsquashfs, humidify) := programs in
     let* r := extract hmx_file unsquashfs humidify EXTRACTED_ROOT (PyBool false) in
     ret (Some r))
    (fun what =>
       LOG_error ("Missing prerequisite: " ++ path_str what);;
       ret None).

(** The [__main__] block (lines 245-254).  [MissingPrerequisite] derives
    from [BaseException], every other class of the model from [Exception];
    the value of [run_extraction] is bound and not used. *)
Definition main : M unit :=
  (fun w => match run_extraction w with
            | (Return _, w') => (Return tt, w')
            | (Raise (MissingPrerequisite what), w') =>
                LOG_error ("Missing prerequisite: " ++ path_str what) w'
            | (Raise e, w') => traceback_print_exc e w'
            end);;
  (* delete temporary directory *)
  shutil_rmtree_ignore_errors hst TEMP_DIR.

End Extract.

(** ** Reading a run *)

(** Exceptions that come out of the library calls, not out of a [raise]
    of the module. *)
Definition library_error (e : exn) : Prop :=
  match e with
  | MissingPrerequisite _ | IOError _ => False
  | _ => True
  end.

(** Nothing but the log differs between [w] and [w']: no file, directory,
    working directory, command or download. *)
Definition only_logged (w w' : world) : Prop :=
  fs w' = fs w /\ cwd w' = cwd w /\ calls w' = calls w /\
  fetched w' = fetched w /\ exists l, log w' = app (log w) l.

(** The commands run, and the lines logged, between [w] and a later [w']. *)
Definition new_calls (w w' : world) : list (string * path) :=
  drop (length (calls w)) (calls w').
Definition new_log (w w' : world) : list (level * string) :=
  drop (length (log w)) (log w').

(** The filesystem after the commands [cs], given as [subprocess.call]
    recorded them, have run in this order from [t]. *)
Fixpoint replay (shell : string -> path -> node -> node)
    (cs : list (string * path)) (t : node) : node :=
  match cs with
  | [] => t
  | (cmd, dir) :: cs' => replay shell cs' (shell cmd dir t)
  end.

(** ** A concrete installation *)

Definition root0 : path := ["home"; "user"; "project"].
Definition tmp0 : path := ["tmp"; "tmpAb12"].
Definition extracted_root0 : path := EXTRACTED_ROOT root0.
Definition hmx0 : path := hmx_filename root0.
Definition unsquashfs0 : path := unsquashfs_filename root0.
Definition humidify0 : path := humidify_filename root0.

(** Tools that do nothing (not installed, no network). *)
Definition shell_noop : string -> path -> node -> node := fun _ _ t => t.

(** Tools that work: [humidify] leaves the raw image and [unsquashfs] the
    tree in the directory they run in. *)
Definition shell_tools : string -> path -> node -> node :=
  fun cmd dir t =>
    if String.eqb cmd (humidify_cmd humidify0 hmx0) then
      default t (put (os_path_join dir ["3.hdfbin-3-700000.raw"]) (File "raw") t)
    else if String.eqb cmd (unsquashfs_cmd tmp0 unsquashfs0) then
      default t (put (os_path_join dir ["squashfs-root"])
                     (Dir {[ "etc" := Dir ∅ ]}) t)
    else t.

(** Tools that work on a real image: the tree that [unsquashfs] leaves has
    a [dev] directory with a device node in it. *)
Definition shell_firmware : string -> path -> node -> node :=
  fun cmd dir t =>
    if String.eqb cmd (humidify_cmd humidify0 hmx0) then
      default t (put (os_path_join dir ["3.hdfbin-3-700000.raw"]) (File "raw") t)
    else if String.eqb cmd (unsquashfs_cmd tmp0 unsquashfs0) then
      default t (put (os_path_join dir ["squashfs-root"])
                     (Dir {[ "etc" := Dir ∅;
                             "dev" := Dir {[ "console" := File EmptyString ]} ]}) t)
    else t.

(** One filesystem, where everything can be copied and deleted. *)
Definition host_plain : host :=
  Host (fun _ => 0%N) (fun _ _ => None) (fun _ _ _ => None).

(** [/tmp] is on a device of its own, a directory [dev] cannot be copied by
    [shutil.copytree], and what [sudo] made in a directory named
    [squashfs-root] cannot be deleted by the user. *)
Definition host_tmpfs : host :=
  Host (fun p => match p with "tmp" :: _ => 1%N | _ => 0%N end)
       (fun _ es => match es !! "dev" with
                    | Some _ => Some (delete "dev" es)
                    | None => None
                    end)
       (fun _ _ es => match es !! "squashfs-root" with
                      | Some n => Some {[ "squashfs-root" := n ]}
                      | None => None
                      end).

Definition no_network : string -> option string := fun _ => None.
Definition no_zip : string -> option (gmap string string) := fun _ => None.

(** Everything installed, an old [extracted_root], an empty scratch area. *)
Definition fs_full : node :=
  Dir {[ "home" := Dir {[ "user" := Dir {[ "project" := Dir {[
           "original_firmware" := Dir {[ "hdpvr.hmx" := File "hmx" ]};
           "bin" := Dir {[ "humidify-linux-i386" := File "elf" ]};
           "firmware-mod-kit-read-only" := Dir {[ "trunk" := Dir {[ "src" :=
              Dir {[ "squashfs-3.0" := Dir {[ "unsquashfs" := File "elf" ]} ]} ]} ]};
           "extracted_root" := Dir {[ "old" := File "old" ]} ]} ]} ]};
         "tmp" := Dir {[ "tmpAb12" := Dir ∅ ]} ]}.

Definition world_of (t : node) (dir : path) : world :=
  World t dir 1000 1000 [] [] [].

Definition w_full : world := world_of fs_full root0.

(** No previous output. *)
Definition w_fresh : world :=
  world_of (remove (EXTRACTED_ROOT root0) fs_full) root0.

(** A scratch area left by an earlier run: raw image and tree are there. *)
Definition w_resume : world :=
  world_of
    (default fs_full
       (put (squashfs_root tmp0) (Dir {[ "etc" := Dir ∅ ]})
          (default fs_full (put (raw_filename tmp0) (File "raw")
                              (remove (EXTRACTED_ROOT root0) fs_full)))))
    root0.

(** The humidify tool was never fetched. *)
Definition w_no_humidify : world := world_of (remove humidify0 fs_full) root0.

(** The firmware image was never downloaded. *)
Definition w_no_hmx : world := world_of (remove hmx0 fs_full) root0.

(** A server and a zip reader that deliver the firmware. *)
Definition one_archive : string -> option string := fun _ => Some "PK".
Definition zip_hmx : string -> option (gmap string string) :=
  fun _ => Some {[ "hdpvr.hmx" := "hmx" ]}.

(** The raw image is in the scratch area, the tree is not. *)
Definition w_raw_only : world :=
  world_of (default fs_full (put (raw_filename tmp0) (File "raw")
                               (remove extracted_root0 fs_full))) root0.

(** The sources of unsquashfs are checked out, the binary is not built,
    and the caller works in another directory. *)
Definition w_unbuilt : world := world_of (remove unsquashfs0 fs_full) tmp0.

(** Nothing of unsquashfs is checked out, and the caller works in another
    directory. *)
Definition w_no_unsquashfs : world :=
  world_of (remove (os_path_join root0 ["firmware-mod-kit-read-only"]) fs_full) tmp0.

(** ** The filesystem tree: lookups after an update *)

Lemma lookup_path_app (p q : path) (t : node) :
  lookup_path (app p q) t =
  match lookup_path p t with
  | Some n => lookup_path q n
  | None => None
  end.
Proof.
  revert t. induction p as [|x p IH]; intros t; simpl; [done|].
  destruct t as [|es]; [done|]. destruct (es !! x); [apply IH|done].
Qed.


Lemma lookup_path_parent_dir (p : path) (x : string) (t : node) (n : node) :
  lookup_path (os_path_join p [x]) t = Some n -> isdir p t = true.
Proof.
  unfold os_path_join, isdir. rewrite lookup_path_app.
  destruct (lookup_path p t) as [[d|es]|]; simpl; done.
Qed.

Lemma isfile_parent_isdir (p : path) (x : string) (t : node) :
  isfile (os_path_join p [x]) t = true -> isdir p t = true.
Proof.
  unfold isfile. destruct (lookup_path (os_path_join p [x]) t) eqn:E; [|done].
  intros _. eapply lookup_path_parent_dir, E.
Qed.

Lemma lookup_put_same (p : path) (n t t' : node) :
  put p n t = Some t' -> lookup_path p t' = Some n.
Proof.
  revert t t'. induction p as [|x p IH]; intros t t'; simpl; [done|].
  destruct t as [|es]; [done|]. destruct p as [|y p].
  - intros [= <-]. simpl. by rewrite lookup_insert_eq.
  - destruct (es !! x) as [c|]; [|done].
    destruct (put (y :: p) n c) as [c'|] eqn:E; [|done].
    intros [= <-]. cbn [lookup_path]. rewrite lookup_insert_eq. by apply (IH c).
Qed.

Lemma lookup_remove_same (p : path) (t : node) :
  p <> [] -> lookup_path p (remove p t) = None.
Proof.
  revert t. induction p as [|x p IH]; intros t Hp; [done|].
  destruct t as [|es]; [done|]. cbn [remove]. destruct p as [|y p].
  - simpl. by rewrite lookup_delete_eq.
  - destruct (es !! x) as [c|] eqn:E.
    + cbn [lookup_path]. rewrite lookup_insert_eq. by apply IH.
    + cbn [lookup_path]. by rewrite E.
Qed.

Lemma makedirs_Some_absent (p : path) (t t' : node) :
  makedirs p t = Some t' -> lookup_path p t = None.
Proof.
  revert t t'. induction p as [|x p IH]; intros t t'; simpl; [done|].
  destruct t as [|es]; [done|]. destruct (es !! x) as [c|]; [|done].
  destruct (makedirs p c) as [c'|] eqn:E; [|done]. intros _. by apply (IH c c').
Qed.

Lemma mktree_lookup (p q : path) (n : node) :
  lookup_path q (mktree p) = Some n -> q `prefix_of` p.
Proof.
  revert p. induction q as [|y q IH]; intros p; [intros _; apply prefix_nil|].
  destruct p as [|x p]; simpl.
  - by rewrite lookup_empty.
  - destruct (decide (x = y)) as [->|Hne].
    + rewrite lookup_singleton_eq. intros H. apply prefix_cons, IH, H.
    + by rewrite lookup_singleton_ne.
Qed.


Lemma makedirs_lookup_other (p q : path) (t t' : node) :
  makedirs p t = Some t' -> ¬ p `prefix_of` q -> ¬ q `prefix_of` p ->
  lookup_path q t' = lookup_path q t.
Proof.
  revert q t t'. induction p as [|x p IH]; intros q t t'; simpl; [done|].
  destruct t as [|es]; [done|].
  destruct q as [|y q]; [intros _ _ H; destruct H; apply prefix_nil|].
  intros Hmk Hpq Hqp.
  destruct (decide (x = y)) as [->|Hne].
  - destruct (es !! y) as [c|] eqn:E.
    + destruct (makedirs p c) as [c'|] eqn:E'; [|done].
      injection Hmk as <-. cbn [lookup_path]. rewrite lookup_insert_eq, E.
      apply (IH q c c' E'); intros H; [apply Hpq|apply Hqp]; by apply prefix_cons.
    + injection Hmk as <-. cbn [lookup_path]. rewrite lookup_insert_eq, E.
      destruct (lookup_path q (mktree p)) eqn:E'; [|done].
      destruct Hqp. apply prefix_cons. eapply mktree_lookup, E'.
  - assert (exists c', t' = Dir (<[x := c']> es)) as [c' ->].
    { destruct (es !! x); [|injection Hmk as <-; eauto].
      destruct (makedirs _ _); [|done]. injection Hmk as <-; eauto. }
    cbn [lookup_path]. by rewrite lookup_insert_ne.
Qed.






(** ** Running the monad *)

#[local] Arguments isdir : simpl never.
#[local] Arguments isfile : simpl never.
#[local] Arguments exists_at : simpl never.
#[local] Arguments rename : simpl never.
#[local] Arguments put : simpl never.
#[local] Arguments remove : simpl never.
#[local] Arguments makedirs : simpl never.
#[local] Arguments destinsrc : simpl never.
#[local] Arguments lookup_path : simpl never.
#[local] Arguments bool_decide : simpl never.
#[local] Arguments path_str : simpl never.
#[local] Arguments String.append : simpl never.

Ltac unfold_os :=
  unfold shutil_move, shutil_copy2, shutil_copytree, shutil_rmtree, samefile,
    try_except_OSError, os_rename, os_unlink, os_chdir, os_makedirs,
    os_path_isdir, os_path_isfile, os_path_exists, os_getcwd, os_geteuid,
    os_getegid, read_file, write_file, LOG_info, LOG_debug, LOG_error, LOG,
    bind, ret, raise, reraise in *.

Ltac inner_case :=
  match goal with
  | |- context [match ?x with _ => _ end] =>
      lazymatch x with
      | context [match _ with _ => _ end] => fail
      | _ => destruct x eqn:?
      end
  | H : context [match ?x with _ => _ end] |- _ =>
      lazymatch x with
      | context [match _ with _ => _ end] => fail
      | _ => destruct x eqn:?
      end
  end.


Lemma shutil_move_spec (h : host) (src dst : path) (w w' : world)
    (r : result unit) :
  shutil_move h src dst w = (r, w') ->
  exists t, w' = set_fs t w /\
    match r with
    | Return _ => True
    | Raise e => library_error e
    end.
Proof.
  destruct w as [t0 c u g l cs f]. unfold_os. simpl. intros H.
  repeat (inner_case; simpl in *; simplify_eq).
  all: eexists; split; [reflexivity|done].
Qed.

Lemma drop_length_app {A} (l k : list A) : drop (length l) (app l k) = k.
Proof. by rewrite drop_app_length. Qed.

Ltac unfold_module :=
  unfold extract, check_destination, pipeline, step1_unpack, step2_unsquashfs,
    step3_chown, step4_move, prereq_programs, run_extraction, prereq_hmx,
    prereq_humidify, prereq_unsquashfs, unsquashfs_commands, run_commands,
    zipfile_extract, urllib2_urlopen, call, try_except_MissingPrerequisite in *.

Ltac run_all := repeat (inner_case; simpl in *; simplify_eq).

(** The same with [shutil.move] kept as one step, read through
    [shutil_move_spec]. *)
Ltac unfold_basic :=
  unfold shutil_rmtree, os_chdir, os_path_isdir, os_path_isfile,
    os_path_exists, os_getcwd, os_geteuid, os_getegid, LOG_info, LOG_debug,
    LOG_error, LOG, bind, ret, raise, reraise in *.

Ltac use_move_spec :=
  match goal with
  | H : shutil_move _ _ _ _ = (_, _) |- _ =>
      apply shutil_move_spec in H; simpl in H; destruct H as (? & ? & ?)
  end.

Ltac norm_bool :=
  repeat match goal with
         | H : negb _ = false |- _ => apply negb_false_iff in H
         | H : negb _ = true |- _ => apply negb_true_iff in H
         | H : _ && _ = true |- _ => apply andb_true_iff in H; destruct H
         end.

(** A file in the scratch area makes the scratch area a directory. *)
Ltac scratch_is_dir :=
  exfalso;
  match goal with
  | H1 : isfile (raw_filename ?T) ?t = true, H2 : isdir ?T ?t = false |- _ =>
      apply isfile_parent_isdir in H1; congruence
  end.

Ltac norm_trace :=
  unfold new_calls, new_log in *; simpl in *;
  rewrite <- ?app_assoc, ?drop_length_app, ?drop_all in *; simpl in *.

Ltac run_steps :=
  repeat (first [inner_case | use_move_spec]; simpl in *; simplify_eq).

Section Properties.

Variable PROJECT_ROOT : path.
Variable TEMP_DIR : path.
Variable shell : string -> path -> node -> node.
Variable urlopen : string -> option string.
Variable zip_members : string -> option (gmap string string).
Variable hst : host.

(** *** The destination policy (lines 172-178) *)

Lemma check_destination_refuses (extracted_root : path) (w : world) :
  isdir extracted_root (fs w) = true ->
  check_destination hst extracted_root (PyBool false) w =
    (Raise (IOError ("Existing: " ++ path_str extracted_root)),
     add_log (ERROR, "extracted_root dir " ++ py_repr (path_str extracted_root)
                     ++ " exists and destroy=False") w).
Proof.
  intros H. unfold_module. unfold_os. simpl. rewrite H. reflexivity.
Qed.

Lemma extract_refuses (hmx_file unsquashfs humidify extracted_root : path)
    (w : world) :
  isdir extracted_root (fs w) = true ->
  extract TEMP_DIR shell hst hmx_file unsquashfs humidify extracted_root
    (PyBool false) w
  = (Raise (IOError ("Existing: " ++ path_str extracted_root)),
     add_log (ERROR, "extracted_root dir " ++ py_repr (path_str extracted_root)
                     ++ " exists and destroy=False") w).
Proof.
  intros H. unfold extract, bind. by rewrite (check_destination_refuses _ _ H).
Qed.

(** C3: with an existing [extracted_root] and [destroy=False], [extract]
    raises [IOError("Existing: ...")], a class of its own beside
    [MissingPrerequisite]; no command has been run, and the filesystem
    (the old output directory with it) and the working directory are as
    they were. *)
Theorem extract_existing_destination_refused
    (hmx_file unsquashfs humidify extracted_root : path) (w : world) :
  isdir extracted_root (fs w) = true ->
  exists w',
    extract TEMP_DIR shell hst hmx_file unsquashfs humidify extracted_root
      (PyBool false) w
    = (Raise (IOError ("Existing: " ++ path_str extracted_root)), w')
    /\ calls w' = calls w /\ fs w' = fs w /\ cwd w' = cwd w.
Proof.
  intros H. rewrite (extract_refuses _ _ _ _ _ H).
  eexists. split; [reflexivity|]. by destruct w.
Qed.

(** *** Prerequisites that are there already (lines 77-79, 112-114, 133-135) *)

Lemma prereq_hmx_returns (url : string) (w w1 : world) (p : path) :
  prereq_hmx PROJECT_ROOT TEMP_DIR urlopen zip_members url w = (Return p, w1) ->
  p = hmx_filename PROJECT_ROOT /\ isfile (hmx_filename PROJECT_ROOT) (fs w1) = true.
Proof.
  destruct w. unfold_module. unfold_os. simpl. intros H. run_all; done.
Qed.

Lemma prereq_unsquashfs_returns (w w1 : world) (p : path) :
  prereq_unsquashfs PROJECT_ROOT shell w = (Return p, w1) ->
  p = unsquashfs_filename PROJECT_ROOT
  /\ isfile (unsquashfs_filename PROJECT_ROOT) (fs w1) = true.
Proof.
  destruct w. unfold_module. unfold_os. simpl. intros H. run_all; done.
Qed.

Lemma prereq_humidify_returns (w w1 : world) (p : path) :
  prereq_humidify PROJECT_ROOT w = (Return p, w1) ->
  p = humidify_filename PROJECT_ROOT
  /\ isfile (humidify_filename PROJECT_ROOT) (fs w1) = true.
Proof.
  destruct w. unfold_module. unfold_os. simpl. intros H. run_all; done.
Qed.

Lemma prereq_hmx_present (url : string) (w : world) :
  isfile (hmx_filename PROJECT_ROOT) (fs w) = true ->
  exists w', prereq_hmx PROJECT_ROOT TEMP_DIR urlopen zip_members url w
             = (Return (hmx_filename PROJECT_ROOT), w') /\ only_logged w w'.
Proof.
  destruct w. unfold_module. unfold_os. simpl. intros ->.
  eexists. split; [reflexivity|]. unfold only_logged. simpl.
  rewrite <- app_assoc. eauto 10.
Qed.

Lemma prereq_unsquashfs_present (w : world) :
  isfile (unsquashfs_filename PROJECT_ROOT) (fs w) = true ->
  exists w', prereq_unsquashfs PROJECT_ROOT shell w
             = (Return (unsquashfs_filename PROJECT_ROOT), w') /\ only_logged w w'.
Proof.
  destruct w. unfold_module. unfold_os. simpl. intros ->.
  eexists. split; [reflexivity|]. unfold only_logged. simpl.
  rewrite <- app_assoc. eauto 10.
Qed.

Lemma prereq_humidify_present (w : world) :
  isfile (humidify_filename PROJECT_ROOT) (fs w) = true ->
  exists w', prereq_humidify PROJECT_ROOT w
             = (Return (humidify_filename PROJECT_ROOT), w') /\ only_logged w w'.
Proof.
  destruct w. unfold_module. unfold_os. simpl. intros ->.
  eexists. split; [reflexivity|]. unfold only_logged. simpl.
  rewrite <- app_assoc. eauto 10.
Qed.

(** C7: each of [prereq_hmx], [prereq_unsquashfs] and [prereq_humidify],
    called with its file in place, returns the canonical path and changes
    nothing but the log: no download, no file written, no command run, no
    change of directory.  A call that returned leaves the file in place,
    so a second call is of that kind. *)
Theorem prereq_present_no_side_effect (url : string) (w : world) :
  (isfile (hmx_filename PROJECT_ROOT) (fs w) = true ->
   exists w', prereq_hmx PROJECT_ROOT TEMP_DIR urlopen zip_members url w
              = (Return (hmx_filename PROJECT_ROOT), w') /\ only_logged w w')
  /\ (isfile (unsquashfs_filename PROJECT_ROOT) (fs w) = true ->
      exists w', prereq_unsquashfs PROJECT_ROOT shell w
                 = (Return (unsquashfs_filename PROJECT_ROOT), w') /\ only_logged w w')
  /\ (isfile (humidify_filename PROJECT_ROOT) (fs w) = true ->
      exists w', prereq_humidify PROJECT_ROOT w
                 = (Return (humidify_filename PROJECT_ROOT), w') /\ only_logged w w')
  /\ (forall p w1,
        prereq_hmx PROJECT_ROOT TEMP_DIR urlopen zip_members url w = (Return p, w1) ->
        exists w2, prereq_hmx PROJECT_ROOT TEMP_DIR urlopen zip_members url w1
                   = (Return p, w2) /\ only_logged w1 w2)
  /\ (forall p w1,
        prereq_unsquashfs PROJECT_ROOT shell w = (Return p, w1) ->
        exists w2, prereq_unsquashfs PROJECT_ROOT shell w1 = (Return p, w2)
                   /\ only_logged w1 w2)
  /\ (forall p w1,
        prereq_humidify PROJECT_ROOT w = (Return p, w1) ->
        exists w2, prereq_humidify PROJECT_ROOT w1 = (Return p, w2)
                   /\ only_logged w1 w2).
Proof.
  split; [apply prereq_hmx_present|].
  split; [apply prereq_unsquashfs_present|].
  split; [apply prereq_humidify_present|].
  split; [|split]; intros p w1 H.
  - apply prereq_hmx_returns in H as [-> H]. by apply prereq_hmx_present.
  - apply prereq_unsquashfs_returns in H as [-> H]. by apply prereq_unsquashfs_present.
  - apply prereq_humidify_returns in H as [-> H]. by apply prereq_humidify_present.
Qed.

(** *** The steps (lines 180-219) *)

Lemma check_destination_frame (extracted_root : path) (destroy : pyval)
    (w w1 : world) (r : result unit) :
  check_destination hst extracted_root destroy w = (r, w1) ->
  calls w1 = calls w /\ cwd w1 = cwd w /\ euid w1 = euid w /\ egid w1 = egid w
  /\ (r = Return tt -> log w1 = log w).
Proof.
  destruct w. unfold_module. unfold_basic. simpl. intros H. run_all; done.
Qed.

Lemma extract_after_destination
    (hmx_file unsquashfs humidify extracted_root : path) (destroy : pyval)
    (w w1 : world) :
  check_destination hst extracted_root destroy w = (Return tt, w1) ->
  extract TEMP_DIR shell hst hmx_file unsquashfs humidify extracted_root destroy w
  = pipeline TEMP_DIR shell hst hmx_file unsquashfs humidify extracted_root w1
  /\ forall w', new_calls w w' = new_calls w1 w' /\ new_log w w' = new_log w1 w'.
Proof.
  intros Hc. split; [unfold extract, bind; by rewrite Hc|].
  destruct (check_destination_frame _ _ _ _ _ Hc) as (Hcalls & _ & _ & _ & Hl).
  intros w'. unfold new_calls, new_log. by rewrite Hcalls, Hl.
Qed.

(** C5: when the unpack tool has run and the raw image is still not in
    the scratch area, [extract] raises [MissingPrerequisite] with that
    very path, and the unpack command is the only command of the run. *)
Theorem extract_unpack_output_missing
    (hmx_file unsquashfs humidify extracted_root : path) (destroy : pyval)
    (w w1 : world) :
  check_destination hst extracted_root destroy w = (Return tt, w1) ->
  isfile (raw_filename TEMP_DIR) (fs w1) = false ->
  isdir TEMP_DIR (fs w1) = true ->
  isfile (raw_filename TEMP_DIR)
    (shell (humidify_cmd humidify hmx_file) TEMP_DIR (fs w1)) = false ->
  exists w',
    extract TEMP_DIR shell hst hmx_file unsquashfs humidify extracted_root destroy w
    = (Raise (MissingPrerequisite (raw_filename TEMP_DIR)), w')
    /\ calls w' = app (calls w) [(humidify_cmd humidify hmx_file, TEMP_DIR)].
Proof.
  intros Hc Hraw Htmp Hout.
  destruct (check_destination_frame _ _ _ _ _ Hc) as (Hcalls & _).
  unfold extract, bind at 1. rewrite Hc. destruct w1.
  unfold_module. unfold_basic. simpl in *.
  rewrite Hraw. simpl. rewrite Htmp. simpl. rewrite Hout. simpl.
  eexists. split; [reflexivity|]. simpl. by rewrite Hcalls.
Qed.

Lemma pipeline_cwd_by_trace
    (hmx_file unsquashfs humidify extracted_root : path)
    (w w' : world) (r : result path) :
  pipeline TEMP_DIR shell hst hmx_file unsquashfs humidify extracted_root w
    = (r, w') ->
  (exists dir, In (humidify_cmd humidify hmx_file, dir) (new_calls w w'))
  \/ In (INFO, "STEP 2: [sudo] unsquashfs") (new_log w w') ->
  cwd w' = TEMP_DIR.
Proof.
  destruct w as [t0 c u g l cs f].
  unfold_module. unfold_basic. simpl. intros H.
  run_steps; norm_bool; simpl; try done.
  all: try scratch_is_dir.
  all: norm_trace; cbv [String.append].
  all: intros [[dir Hin]|Hin];
         repeat (destruct Hin as [Hin|Hin]; try discriminate Hin); done.
Qed.

Lemma pipeline_cwd_by_state
    (hmx_file unsquashfs humidify extracted_root : path)
    (w w' : world) (r : result path) :
  pipeline TEMP_DIR shell hst hmx_file unsquashfs humidify extracted_root w
    = (r, w') ->
  isfile (raw_filename TEMP_DIR) (fs w) = true \/ isdir TEMP_DIR (fs w) = true ->
  cwd w' = TEMP_DIR
  /\ (isfile (raw_filename TEMP_DIR) (fs w) = false ->
      In (humidify_cmd humidify hmx_file, TEMP_DIR) (new_calls w w'))
  /\ (isfile (raw_filename TEMP_DIR) (fs w) = true ->
      In (INFO, "STEP 2: [sudo] unsquashfs") (new_log w w')).
Proof.
  destruct w as [t0 c u g l cs f].
  unfold_module. unfold_basic. simpl. intros H Hs.
  run_steps; norm_bool; simpl; try scratch_is_dir.
  all: try (destruct Hs; congruence).
  all: norm_trace; repeat split; try done; intros Hx; try congruence; auto 20.
Qed.

(** C10: a run of [extract] that starts the unpack tool, or gets to STEP 2,
    ends with the scratch directory as the working directory of the
    process, whether it returns or raises.  By the trace: if the unpack
    command was run, in whatever directory, or the STEP 2 line was logged.
    By the state the steps start from: if the raw image is there (STEP 1 is
    skipped and STEP 2 reached), or it is not and the scratch directory
    exists (the unpack tool is started, in the scratch directory). *)
Theorem extract_leaves_cwd_in_scratch
    (hmx_file unsquashfs humidify extracted_root : path) (destroy : pyval)
    (w w' : world) (r : result path) :
  extract TEMP_DIR shell hst hmx_file unsquashfs humidify extracted_root destroy w
    = (r, w') ->
  ((exists dir, In (humidify_cmd humidify hmx_file, dir) (new_calls w w'))
   \/ In (INFO, "STEP 2: [sudo] unsquashfs") (new_log w w') ->
   cwd w' = TEMP_DIR)
  /\ (forall w1,
        check_destination hst extracted_root destroy w = (Return tt, w1) ->
        isfile (raw_filename TEMP_DIR) (fs w1) = true
        \/ isdir TEMP_DIR (fs w1) = true ->
        cwd w' = TEMP_DIR
        /\ (isfile (raw_filename TEMP_DIR) (fs w1) = false ->
            In (humidify_cmd humidify hmx_file, TEMP_DIR) (new_calls w w'))
        /\ (isfile (raw_filename TEMP_DIR) (fs w1) = true ->
            In (INFO, "STEP 2: [sudo] unsquashfs") (new_log w w'))).
Proof.
  intros H. split.
  - destruct (check_destination hst extracted_root destroy w) as [[[]|e] w1] eqn:Hc.
    + destruct (extract_after_destination hmx_file unsquashfs humidify _ _ _ _ Hc)
        as [He Ht].
      rewrite He in H. destruct (Ht w') as [-> ->].
      by apply (pipeline_cwd_by_trace _ _ _ _ _ _ _ H).
    + unfold extract, bind in H. rewrite Hc in H. injection H as <- <-.
      destruct (check_destination_frame _ _ _ _ _ Hc) as (Hcalls & _).
      assert (exists l, log w1 = app (log w) l
                        /\ ~ In (INFO, "STEP 2: [sudo] unsquashfs") l) as (l0 & Hl & Hn).
      { clear Hcalls. destruct w. unfold_module. unfold_basic. simpl in Hc.
        run_all; simpl.
        all: first [ exists []; split; [by rewrite app_nil_r|by intros []]
                   | eexists; split; [reflexivity|];
                     intros [Hin|[]]; discriminate Hin ]. }
      unfold new_calls, new_log. rewrite Hcalls, Hl, drop_all, drop_length_app.
      intros [[dir []]|Hin]. done.
  - intros w1 Hc Hs.
    destruct (extract_after_destination hmx_file unsquashfs humidify _ _ _ _ Hc)
      as [He Ht].
    rewrite He in H. destruct (Ht w') as [-> ->].
    by apply (pipeline_cwd_by_state _ _ _ _ _ _ _ H).
Qed.






Lemma rmtree_result_None (h : host) (b : bool) (p : path)
    (es : gmap string node) (t : node) :
  rmtree_result h b p es t = None -> p <> [].
Proof.
  unfold rmtree_result. destruct (rmtree_left h b p es); [done|].
  by destruct p.
Qed.

Lemma check_destination_destroys (extracted_root : path) (destroy : pyval)
    (w w1 : world) (r : result unit) :
  isdir extracted_root (fs w) = true -> is_False destroy = false ->
  check_destination hst extracted_root destroy w = (r, w1) ->
  calls w1 = calls w
  /\ match r with
     | Return _ => fs w1 = remove extracted_root (fs w)
                   /\ exists_at extracted_root (fs w1) = false
     | Raise e => e = OSError extracted_root
     end.
Proof.
  intros Hd Hf. destruct w as [t0 c u g l cs f].
  unfold_module. unfold_basic. simpl in *. rewrite Hd, Hf. simpl. rewrite Hd.
  intros H. run_all; try done. simpl.
  split; [done|]. split; [done|]. unfold exists_at.
  rewrite lookup_remove_same; [done|]. by eapply rmtree_result_None.
Qed.

Lemma pipeline_fails_before_move
    (hmx_file unsquashfs humidify extracted_root : path)
    (w w' : world) (e : exn) :
  pipeline TEMP_DIR shell hst hmx_file unsquashfs humidify extracted_root w
    = (Raise e, w') ->
  (~ In (INFO, "STEP 4: move tree") (new_log w w') ->
   fs w' = replay shell (new_calls w w') (fs w))
  /\ (In (INFO, "STEP 4: move tree") (new_log w w') ->
      e = MissingPrerequisite extracted_root ->
      isdir extracted_root (fs w') = false).
Proof.
  destruct w as [t0 c u g l cs f].
  unfold_module. unfold_basic. simpl. intros H.
  run_steps; norm_bool; simpl.
  all: norm_trace; cbv [String.append].
  all: split; [intros Hn; try done; exfalso; apply Hn; auto 20|].
  all: intros Hin; try done.
  all: repeat (destruct Hin as [Hin|Hin]; try discriminate Hin); try done.
  all: intros ->; by simpl in *.
Qed.

(** C9, as the code has it: with an existing [extracted_root] and a
    [destroy] that is not [False], [shutil.rmtree] is called on it before
    STEP 1.  If it raises, that [OSError] ends the run with no command run.
    If it returns, the steps start from a filesystem with nothing at
    [extracted_root] and no command run, and nothing in [extract] puts the
    old content back: when the run fails before the move, the filesystem is
    the one after the removal as the commands of the run changed it; when
    the test after the move raises, no directory is at [extracted_root].
    (A move that itself raises may leave a directory there: the part
    that [shutil.copytree] had copied.) *)
Theorem extract_destroy_removes_first
    (hmx_file unsquashfs humidify extracted_root : path) (destroy : pyval)
    (w : world) :
  isdir extracted_root (fs w) = true -> is_False destroy = false ->
  (forall e w1,
     check_destination hst extracted_root destroy w = (Raise e, w1) ->
     e = OSError extracted_root /\ calls w1 = calls w
     /\ extract TEMP_DIR shell hst hmx_file unsquashfs humidify extracted_root
          destroy w = (Raise e, w1))
  /\ (forall w1,
        check_destination hst extracted_root destroy w = (Return tt, w1) ->
        fs w1 = remove extracted_root (fs w)
        /\ exists_at extracted_root (fs w1) = false
        /\ calls w1 = calls w
        /\ forall e w',
             extract TEMP_DIR shell hst hmx_file unsquashfs humidify
               extracted_root destroy w = (Raise e, w') ->
             (~ In (INFO, "STEP 4: move tree") (new_log w w') ->
              fs w' = replay shell (new_calls w w') (fs w1))
             /\ (In (INFO, "STEP 4: move tree") (new_log w w') ->
                 e = MissingPrerequisite extracted_root ->
                 isdir extracted_root (fs w') = false)).
Proof.
  intros Hd Hf. split.
  - intros e w1 Hc.
    destruct (check_destination_destroys _ _ _ _ _ Hd Hf Hc) as [Hcalls ->].
    repeat split; [done|]. unfold extract, bind. by rewrite Hc.
  - intros w1 Hc.
    destruct (check_destination_destroys _ _ _ _ _ Hd Hf Hc) as (Hcalls & Hfs & Hex).
    split; [done|]. split; [done|]. split; [done|]. intros e w' H.
    destruct (extract_after_destination hmx_file unsquashfs humidify _ _ _ _ Hc)
      as [He Ht].
    rewrite He in H. destruct (Ht w') as [-> ->].
    exact (pipeline_fails_before_move _ _ _ _ _ _ _ H).
Qed.

(** *** Which exception for which failure *)

Lemma hmx_dirname :
  os_path_join (os_path_dirname (hmx_filename PROJECT_ROOT)) ["hdpvr.hmx"]
  = hmx_filename PROJECT_ROOT.
Proof.
  unfold os_path_dirname, hmx_filename, os_path_join.
  rewrite removelast_app by done. simpl. by rewrite <- app_assoc.
Qed.

(** [prereq_hmx] never gets to its own [raise]: once
    [ZipFile.extract] has returned, the member is at the canonical path. *)
Lemma prereq_hmx_raises_library (url : string) (w w' : world) (e : exn) :
  prereq_hmx PROJECT_ROOT TEMP_DIR urlopen zip_members url w = (Raise e, w') ->
  library_error e.
Proof.
  destruct w as [t0 c u g l cs f]. unfold_module. unfold_os. simpl.
  intros H. run_all; norm_bool; simpl; try done.
  all: match goal with
       | Hp : put (os_path_join (os_path_dirname _) _) (File _) _ = Some _,
         Hf : isfile (hmx_filename _) _ = false |- _ =>
           rewrite hmx_dirname in Hp; unfold isfile in Hf;
           by rewrite (lookup_put_same _ _ _ _ Hp) in Hf
       end.
Qed.

Lemma pipeline_raises
    (hmx_file unsquashfs humidify extracted_root : path)
    (w w' : world) (e : exn) :
  pipeline TEMP_DIR shell hst hmx_file unsquashfs humidify extracted_root w
    = (Raise e, w') ->
  (e = MissingPrerequisite (raw_filename TEMP_DIR)
   /\ isfile (raw_filename TEMP_DIR) (fs w') = false)
  \/ (e = MissingPrerequisite (squashfs_root TEMP_DIR)
      /\ isdir (squashfs_root TEMP_DIR) (fs w') = false)
  \/ (e = MissingPrerequisite extracted_root
      /\ isdir extracted_root (fs w') = false)
  \/ library_error e.
Proof.
  destruct w as [t0 c u g l cs f].
  unfold_module. unfold_basic. simpl. intros H.
  run_steps; norm_bool; simpl; by auto 10.
Qed.

(** C1, as the code has it.  [MissingPrerequisite], carrying the path that
    is not there, is raised: by [prereq_humidify] when the tool is not in
    place; by [prereq_unsquashfs] when the binary is not there after the
    three commands of the build; by [extract] when the raw image is not
    there after the unpack command, when the tree is not there after
    unsquashfs, and when [extracted_root] is no directory after the move.
    The refusal of an existing [extracted_root] is an [IOError] instead.
    [prereq_hmx] ends in library exceptions only, and every other exception
    of [extract] and [prereq_unsquashfs] is a library exception too. *)
Theorem error_kinds
    (url : string) (hmx_file unsquashfs humidify extracted_root : path)
    (destroy : pyval) :
  (* the refusal of an existing destination *)
  (forall w,
     isdir extracted_root (fs w) = true -> is_False destroy = true ->
     exists w',
       extract TEMP_DIR shell hst hmx_file unsquashfs humidify extracted_root
         destroy w
       = (Raise (IOError ("Existing: " ++ path_str extracted_root)), w'))
  (* prerequisites that cannot be resolved *)
  /\ (forall w,
        isfile (humidify_filename PROJECT_ROOT) (fs w) = false ->
        exists w',
          prereq_humidify PROJECT_ROOT w
          = (Raise (MissingPrerequisite (humidify_filename PROJECT_ROOT)), w'))
  /\ (forall w,
        let src := os_path_join PROJECT_ROOT
                     ["firmware-mod-kit-read-only"; "trunk"; "src"] in
        let t1 :=
          shell "svn checkout http://firmware-mod-kit.googlecode.com/svn/ firmware-mod-kit-read-only"
            PROJECT_ROOT (fs w) in
        let t2 := shell "./configure" src t1 in
        let t3 := shell "make" src t2 in
        isfile (unsquashfs_filename PROJECT_ROOT) (fs w) = false ->
        isdir PROJECT_ROOT (fs w) = true -> isdir src t1 = true ->
        isdir src t2 = true -> isdir (cwd w) t3 = true ->
        isfile (unsquashfs_filename PROJECT_ROOT) t3 = false ->
        exists w',
          prereq_unsquashfs PROJECT_ROOT shell w
          = (Raise (MissingPrerequisite (unsquashfs_filename PROJECT_ROOT)), w'))
  (* tool output that is not there *)
  /\ (forall w w1,
        check_destination hst extracted_root destroy w = (Return tt, w1) ->
        isfile (raw_filename TEMP_DIR) (fs w1) = false ->
        isdir TEMP_DIR (fs w1) = true ->
        isfile (raw_filename TEMP_DIR)
          (shell (humidify_cmd humidify hmx_file) TEMP_DIR (fs w1)) = false ->
        exists w',
          extract TEMP_DIR shell hst hmx_file unsquashfs humidify extracted_root
            destroy w
          = (Raise (MissingPrerequisite (raw_filename TEMP_DIR)), w'))
  /\ (forall w w2,
        (check_destination hst extracted_root destroy;;
         step1_unpack TEMP_DIR shell hmx_file humidify) w = (Return tt, w2) ->
        isdir (squashfs_root TEMP_DIR)
          (shell (unsquashfs_cmd TEMP_DIR unsquashfs) TEMP_DIR (fs w2)) = false ->
        exists w',
          extract TEMP_DIR shell hst hmx_file unsquashfs humidify extracted_root
            destroy w
          = (Raise (MissingPrerequisite (squashfs_root TEMP_DIR)), w'))
  (* a move that did not leave the destination *)
  /\ (forall w w4 w5,
        (check_destination hst extracted_root destroy;;
         step1_unpack TEMP_DIR shell hmx_file humidify;;
         step2_unsquashfs TEMP_DIR shell unsquashfs;;
         step3_chown TEMP_DIR shell) w = (Return tt, w4) ->
        shutil_move hst (squashfs_root TEMP_DIR) extracted_root
          (add_log (DEBUG, " " ++ path_str (squashfs_root TEMP_DIR) ++ " -> "
                           ++ path_str extracted_root)
             (add_log (INFO, "STEP 4: move tree") w4))
        = (Return tt, w5) ->
        isdir extracted_root (fs w5) = false ->
        extract TEMP_DIR shell hst hmx_file unsquashfs humidify extracted_root
          destroy w
        = (Raise (MissingPrerequisite extracted_root), w5))
  (* nothing else is raised by the module *)
  /\ (forall w e w',
        extract TEMP_DIR shell hst hmx_file unsquashfs humidify extracted_root
          destroy w = (Raise e, w') ->
        (e = IOError ("Existing: " ++ path_str extracted_root)
         /\ isdir extracted_root (fs w) = true /\ is_False destroy = true)
        \/ (e = MissingPrerequisite (raw_filename TEMP_DIR)
            /\ isfile (raw_filename TEMP_DIR) (fs w') = false)
        \/ (e = MissingPrerequisite (squashfs_root TEMP_DIR)
            /\ isdir (squashfs_root TEMP_DIR) (fs w') = false)
        \/ (e = MissingPrerequisite extracted_root
            /\ isdir extracted_root (fs w') = false)
        \/ library_error e)
  /\ (forall w e w',
        prereq_hmx PROJECT_ROOT TEMP_DIR urlopen zip_members url w = (Raise e, w') ->
        library_error e)
  /\ (forall w e w',
        prereq_unsquashfs PROJECT_ROOT shell w = (Raise e, w') ->
        (e = MissingPrerequisite (unsquashfs_filename PROJECT_ROOT)
         /\ isfile (unsquashfs_filename PROJECT_ROOT) (fs w') = false)
        \/ library_error e)
  /\ (forall w e w',
        prereq_humidify PROJECT_ROOT w = (Raise e, w') ->
        e = MissingPrerequisite (humidify_filename PROJECT_ROOT)
        /\ isfile (humidify_filename PROJECT_ROOT) (fs w') = false).
Proof.
  repeat apply conj.
  - intros w Hd Hf. destruct destroy as [[]| |]; try done.
    rewrite (extract_refuses _ _ _ _ _ Hd). eauto.
  - intros [t0 c u g l cs f] Hf. unfold_module. unfold_os. simpl in *.
    rewrite Hf. simpl. eauto.
  - intros [t0 c u g l cs f]. simpl. intros Hf H0 H1 H2 H3 H4.
    unfold_module. unfold_os. simpl.
    rewrite Hf. simpl. rewrite H0. simpl. rewrite H1. simpl. rewrite H2. simpl.
    rewrite H3. simpl. rewrite H4. simpl. eauto.
  - intros w w1 Hc Hraw Htmp Hout.
    destruct (extract_after_destination hmx_file unsquashfs humidify _ _ _ _ Hc)
      as [-> _].
    destruct w1. unfold_module. unfold_basic. simpl in *.
    rewrite Hraw. simpl. rewrite Htmp. simpl. rewrite Hout. simpl. eauto.
  - intros w w2 H12 Hsq. unfold extract, pipeline.
    unfold bind at 1 in H12. unfold bind at 1 2.
    destruct (check_destination hst extracted_root destroy w) as [[[]|e0] w1];
      [|done].
    destruct (step1_unpack _ _ _ _ w1) as [[[]|e1] w2'] eqn:E1; [|done].
    injection H12 as ->.
    assert (isdir TEMP_DIR (fs w2) = true) as Htmp.
    { clear Hsq. destruct w1 as [t0 c u g l cs f].
      unfold_module. unfold_basic. simpl in E1.
      run_all; norm_bool; simpl; by eapply isfile_parent_isdir. }
    destruct w2. unfold_module. unfold_basic. simpl in *.
    rewrite Htmp. simpl. rewrite Hsq. simpl. eauto.
  - intros w w4 w5 H14 Hmv Hd. unfold extract, pipeline.
    unfold bind at 1 in H14. unfold bind at 1.
    destruct (check_destination hst extracted_root destroy w) as [[[]|e0] w1];
      [|done].
    unfold bind at 1 in H14. unfold bind at 1.
    destruct (step1_unpack _ _ _ _ w1) as [[[]|e1] w2]; [|done].
    unfold bind at 1 in H14. unfold bind at 1.
    destruct (step2_unsquashfs _ _ _ w2) as [[[]|e2] w3]; [|done].
    unfold bind at 1.
    destruct (step3_chown _ _ w3) as [[[]|e3] w4']; [|done].
    injection H14 as ->.
    unfold step4_move. unfold_basic. simpl. rewrite Hmv. simpl. by rewrite Hd.
  - intros w e w' H.
    destruct (check_destination hst extracted_root destroy w) as [[[]|e0] w1] eqn:Hc.
    + destruct (extract_after_destination hmx_file unsquashfs humidify _ _ _ _ Hc)
        as [He _].
      rewrite He in H. right. by apply (pipeline_raises _ _ _ _ _ _ _ H).
    + unfold extract, bind in H. rewrite Hc in H. injection H as <- <-.
      destruct w as [t0 c u g l cs f]. unfold_module. unfold_basic. simpl in Hc.
      run_all; norm_bool; simpl; by auto 10.
  - intros w e w'. apply prereq_hmx_raises_library.
  - intros [t0 c u g l cs f] e w'.
    unfold_module. unfold_os. simpl. intros H.
    run_all; norm_bool; simpl; by auto.
  - intros [t0 c u g l cs f] e w'.
    unfold_module. unfold_os. simpl. intros H.
    run_all; norm_bool; simpl; by auto.
Qed.

(** *** The check after the move (lines 212-219) *)

(** C4, as the code has it: after [shutil.move] returns, STEP 4 looks at
    [extracted_root] only.  If it is a directory, [extracted_root] is
    returned, else [MissingPrerequisite(extracted_root)] is raised; what
    is left at the scratch location plays no part.  So whenever [extract]
    returns, it returns [extracted_root], and that is a directory. *)
Theorem extract_checks_destination_only
    (hmx_file unsquashfs humidify extracted_root : path) (destroy : pyval) :
  (forall w w1,
     shutil_move hst (squashfs_root TEMP_DIR) extracted_root
       (add_log (DEBUG, " " ++ path_str (squashfs_root TEMP_DIR) ++ " -> "
                        ++ path_str extracted_root)
          (add_log (INFO, "STEP 4: move tree") w))
     = (Return tt, w1) ->
     step4_move TEMP_DIR hst extracted_root w
     = if isdir extracted_root (fs w1) then (Return extracted_root, w1)
       else (Raise (MissingPrerequisite extracted_root), w1))
  /\ (forall w p w',
        extract TEMP_DIR shell hst hmx_file unsquashfs humidify extracted_root
          destroy w = (Return p, w') ->
        p = extracted_root /\ isdir extracted_root (fs w') = true).
Proof.
  split.
  - intros w w1 H. unfold step4_move. unfold_basic. simpl. rewrite H. simpl.
    by destruct (isdir extracted_root (fs w1)).
  - intros w p w'. destruct w as [t0 c u g l cs f].
    unfold_module. unfold_basic. simpl. intros H.
    run_steps; norm_bool; simpl; done.
Qed.

(** *** Propagation (lines 221-243) *)

(** [run_extraction] lets no [MissingPrerequisite] through: its handler
    logs and falls off the end of the function. *)
Lemma run_extraction_swallows (w w' : world) (what : path) :
  run_extraction PROJECT_ROOT TEMP_DIR shell urlopen zip_members hst w
  <> (Raise (MissingPrerequisite what), w').
Proof.
  unfold run_extraction, try_except_MissingPrerequisite.
  destruct (bind _ _ w) as [[a|[]] w1]; unfold_basic; simpl; congruence.
Qed.

(** *** The working directory across the build (lines 147-153) *)

(** When the three [os.chdir] of the build loop and the one that restores
    go through, that is whenever [prereq_unsquashfs] returns or raises
    its own [MissingPrerequisite], the working directory is the one of
    the entry. *)
Lemma prereq_unsquashfs_restores_cwd (w w' : world) (r : result path) :
  prereq_unsquashfs PROJECT_ROOT shell w = (r, w') ->
  (forall p, r <> Raise (OSError p)) ->
  cwd w' = cwd w.
Proof.
  destruct w as [t0 c u g l cs f].
  unfold_module. unfold_os. simpl. intros H Hr.
  run_all; simpl; try done.
  all: by edestruct Hr.
Qed.

End Properties.

(** ** Further properties of the module *)


Section More.

Variable PROJECT_ROOT : path.
Variable TEMP_DIR : path.
Variable shell : string -> path -> node -> node.
Variable urlopen : string -> option string.
Variable zip_members : string -> option (gmap string string).
Variable hst : host.

(** *** [run_extraction] and [prereq_programs] (lines 221-243) *)

(** [run_extraction] never ends in [MissingPrerequisite]; when it returns
    [None], the last line of the log is the error line of its handler. *)
Theorem run_extraction_returns_None_after_logging (w w' : world)
    (r : result (option path)) :
  run_extraction PROJECT_ROOT TEMP_DIR shell urlopen zip_members hst w = (r, w') ->
  (forall what, r <> Raise (MissingPrerequisite what))
  /\ (r = Return None ->
      exists what,
        last (log w') = Some (ERROR, "Missing prerequisite: " ++ path_str what)).
Proof.
  unfold run_extraction, try_except_MissingPrerequisite.
  destruct (bind _ _ w) as [[a|e] w1] eqn:E.
  - intros [= <- <-]. split; [done|]. intros [= ->].
    unfold bind in E. destruct (prereq_programs _ _ _ _ _ w) as [[[[h u] m]|] w2]; [|done].
    destruct (extract _ _ _ _ _ _ _ _ w2) as [[p|] w3]; done.
  - destruct e; intros [= <- <-]; try done.
    unfold_basic. simpl. split; [done|]. intros _. exists what.
    by rewrite last_snoc.
Qed.

Lemma prereq_humidify_outcome (w w' : world) (r : result path) :
  prereq_humidify PROJECT_ROOT w = (r, w') ->
  only_logged w w'
  /\ (isfile (humidify_filename PROJECT_ROOT) (fs w) = true ->
      r = Return (humidify_filename PROJECT_ROOT))
  /\ (isfile (humidify_filename PROJECT_ROOT) (fs w) = false ->
      r = Raise (MissingPrerequisite (humidify_filename PROJECT_ROOT))).
Proof.
  destruct w as [t0 c u g l cs f]. unfold_module. unfold_os. simpl. intros H.
  run_all; unfold only_logged; simpl; rewrite <- ?app_assoc;
    repeat split; eauto; done.
Qed.

(** [prereq_humidify] never acts: whatever the outcome, only the log has
    changed, and it returns exactly when the tool is in place. *)
Theorem prereq_humidify_only_logs (w w' : world) (r : result path) :
  prereq_humidify PROJECT_ROOT w = (r, w') ->
  only_logged w w'
  /\ (isfile (humidify_filename PROJECT_ROOT) (fs w) = true ->
      r = Return (humidify_filename PROJECT_ROOT))
  /\ (isfile (humidify_filename PROJECT_ROOT) (fs w) = false ->
      r = Raise (MissingPrerequisite (humidify_filename PROJECT_ROOT))).
Proof. apply prereq_humidify_outcome. Qed.

Lemma error_kinds_hmx (url : string) (w w' : world) (e : exn) :
  prereq_hmx PROJECT_ROOT TEMP_DIR urlopen zip_members url w = (Raise e, w') ->
  (e = MissingPrerequisite (hmx_filename PROJECT_ROOT)
   /\ isfile (hmx_filename PROJECT_ROOT) (fs w') = false)
  \/ library_error e.
Proof.
  destruct w as [t0 c u g l cs f].
  unfold_module. unfold_os. simpl. intros H.
  run_all; norm_bool; simpl; by auto.
Qed.

Lemma error_kinds_unsquashfs (w w' : world) (e : exn) :
  prereq_unsquashfs PROJECT_ROOT shell w = (Raise e, w') ->
  (e = MissingPrerequisite (unsquashfs_filename PROJECT_ROOT)
   /\ isfile (unsquashfs_filename PROJECT_ROOT) (fs w') = false)
  \/ library_error e.
Proof.
  destruct w as [t0 c u g l cs f].
  unfold_module. unfold_os. simpl. intros H.
  run_all; norm_bool; simpl; by auto.
Qed.

Lemma prereq_hmx_frame (url : string) (w w1 : world) (r : result path) :
  prereq_hmx PROJECT_ROOT TEMP_DIR urlopen zip_members url w = (r, w1) ->
  calls w1 = calls w /\ cwd w1 = cwd w.
Proof.
  destruct w as [t0 c u g l cs f]. unfold_module. unfold_os. simpl. intros H.
  run_all; done.
Qed.

(** [prereq_programs] fails fast: when the firmware image cannot be made
    available, the exception of [prereq_hmx] is the exception of
    [prereq_programs], and neither the build of unsquashfs has been
    started nor the working directory changed. *)
Theorem prereq_programs_fails_fast (w w1 : world) (e : exn) :
  prereq_hmx PROJECT_ROOT TEMP_DIR urlopen zip_members default_source_url w
    = (Raise e, w1) ->
  exists w',
    prereq_programs PROJECT_ROOT TEMP_DIR shell urlopen zip_members w = (Raise e, w')
    /\ calls w' = calls w /\ cwd w' = cwd w /\ fs w' = fs w1.
Proof.
  intros H. destruct (prereq_hmx_frame _ _ _ _ H) as [Hc Hd].
  unfold prereq_programs, try_except_MissingPrerequisite, bind at 1 2.
  rewrite H. destruct w1. destruct e; unfold_basic; simpl in *; eauto.
Qed.

(** When [prereq_programs] returns, it returns the three canonical paths in
    the order firmware, unsquashfs, humidify, and unsquashfs and humidify
    are files at that moment. *)
Theorem prereq_programs_returns (w w' : world) (h u m : path) :
  prereq_programs PROJECT_ROOT TEMP_DIR shell urlopen zip_members w
    = (Return (h, u, m), w') ->
  h = hmx_filename PROJECT_ROOT /\ u = unsquashfs_filename PROJECT_ROOT
  /\ m = humidify_filename PROJECT_ROOT
  /\ isfile (unsquashfs_filename PROJECT_ROOT) (fs w') = true
  /\ isfile (humidify_filename PROJECT_ROOT) (fs w') = true.
Proof.
  unfold prereq_programs, try_except_MissingPrerequisite, bind.
  destruct (prereq_hmx _ _ _ _ _ w) as [[h'|e1] w1] eqn:E1.
  2:{ destruct e1; unfold_basic; simpl; done. }
  destruct (prereq_unsquashfs _ _ w1) as [[u'|e2] w2] eqn:E2.
  2:{ destruct e2; unfold_basic; simpl; done. }
  destruct (prereq_humidify _ w2) as [[m'|e3] w3] eqn:E3.
  2:{ destruct e3; unfold_basic; simpl; done. }
  unfold ret. intros [= <- <- <- <-].
  apply prereq_hmx_returns in E1 as [-> _].
  apply prereq_unsquashfs_returns in E2 as [-> Hu].
  pose proof (prereq_humidify_outcome _ _ _ E3) as [(Hfs & _) _].
  apply prereq_humidify_returns in E3 as [-> Hm].
  rewrite Hfs in *. done.
Qed.

(** A [MissingPrerequisite] leaves [prereq_programs] as it was raised, for
    one of the three canonical paths, and the last line logged is the error
    line that names it. *)
Theorem prereq_programs_logs_and_reraises (w w' : world) (what : path) :
  prereq_programs PROJECT_ROOT TEMP_DIR shell urlopen zip_members w
    = (Raise (MissingPrerequisite what), w') ->
  (what = hmx_filename PROJECT_ROOT \/ what = unsquashfs_filename PROJECT_ROOT
   \/ what = humidify_filename PROJECT_ROOT)
  /\ last (log w') = Some (ERROR, "Missing prerequisite: " ++ path_str what).
Proof.
  unfold prereq_programs, try_except_MissingPrerequisite. unfold bind at 1.
  destruct (bind _ _ w) as [[a|e] w1] eqn:E; [done|].
  destruct e; unfold_basic; simpl; intros [= <- <-].
  split; [|simpl; by rewrite last_snoc].
  destruct (prereq_hmx _ _ _ _ _ w) as [[h'|e1] w2] eqn:E1.
  2:{ injection E as -> _.
      destruct (error_kinds_hmx _ _ _ _ E1) as [[[= ->] _]|[]]. auto. }
  destruct (prereq_unsquashfs _ _ w2) as [[u'|e2] w3] eqn:E2.
  2:{ injection E as -> _.
      destruct (error_kinds_unsquashfs _ _ _ E2) as [[[= ->] _]|[]]. auto. }
  destruct (prereq_humidify _ w3) as [[m'|e3] w4] eqn:E3; [done|].
  injection E as -> _.
  pose proof (prereq_humidify_outcome _ _ _ E3) as (_ & H1 & H2).
  destruct (isfile (humidify_filename PROJECT_ROOT) (fs w3));
    [by specialize (H1 eq_refl)|specialize (H2 eq_refl)]. injection H2 as ->. auto.
Qed.

(** *** [extract] (lines 161-219) *)

(** The commands of a run that returns: the unpack command unless STEP 1
    was skipped, then unsquashfs, then chown with the effective user and
    group of the process, each run in the scratch directory and in this
    order; nothing is downloaded. *)
Theorem extract_returns_trace
    (hmx_file unsquashfs humidify extracted_root : path) (destroy : pyval)
    (w w' : world) (p : path) :
  extract TEMP_DIR shell hst hmx_file unsquashfs humidify extracted_root destroy w
    = (Return p, w') ->
  (new_calls w w' = [(unsquashfs_cmd TEMP_DIR unsquashfs, TEMP_DIR);
                     (chown_cmd TEMP_DIR (euid w) (egid w), TEMP_DIR)]
   \/ new_calls w w' = [(humidify_cmd humidify hmx_file, TEMP_DIR);
                        (unsquashfs_cmd TEMP_DIR unsquashfs, TEMP_DIR);
                        (chown_cmd TEMP_DIR (euid w) (egid w), TEMP_DIR)])
  /\ fetched w' = fetched w.
Proof.
  destruct w as [t0 c u g l cs f]. unfold new_calls.
  unfold_module. unfold_basic. simpl. intros H.
  run_steps; norm_bool; simpl.
  all: rewrite <- ?app_assoc, ?drop_length_app; simpl; auto.
Qed.

(** [extract] refuses with [IOError("Existing: ...")] exactly when
    [extracted_root] is a directory and [destroy] is the object [False]:
    a [destroy] of [0] or [None] does not protect the directory. *)
Theorem extract_refuses_iff
    (hmx_file unsquashfs humidify extracted_root : path) (destroy : pyval)
    (w : world) :
  (exists w',
     extract TEMP_DIR shell hst hmx_file unsquashfs humidify extracted_root destroy w
     = (Raise (IOError ("Existing: " ++ path_str extracted_root)), w'))
  <-> isdir extracted_root (fs w) = true /\ destroy = PyBool false.
Proof.
  split.
  - intros [w' H]. destruct w as [t0 c u g l cs f].
    unfold_module. unfold_basic. simpl in *.
    run_steps; norm_bool; simpl in *; destruct_and?; try done.
    all: split; [done|]. all: by destruct destroy as [[]| |].
  - intros [Hd ->]. rewrite (extract_refuses _ _ _ _ _ _ _ _ Hd). eauto.
Qed.

Lemma raw_filename_ne_squashfs_root :
  raw_filename TEMP_DIR <> squashfs_root TEMP_DIR.
Proof.
  unfold raw_filename, squashfs_root, os_path_join. intros H.
  apply app_inv_head in H. discriminate H.
Qed.

(** When unsquashfs leaves no tree, [extract] raises
    [MissingPrerequisite(squashfs_root)] with unsquashfs as the last command
    of the run: chown is not run and nothing is moved.  ([extracted_root]
    is taken to differ from the scratch location of the tree, which tells
    this failure from the one of STEP 4.) *)
Theorem extract_unsquashfs_output_missing
    (hmx_file unsquashfs humidify extracted_root : path) (destroy : pyval)
    (w w' : world) :
  extract TEMP_DIR shell hst hmx_file unsquashfs humidify extracted_root destroy w
    = (Raise (MissingPrerequisite (squashfs_root TEMP_DIR)), w') ->
  extracted_root <> squashfs_root TEMP_DIR ->
  (new_calls w w' = [(unsquashfs_cmd TEMP_DIR unsquashfs, TEMP_DIR)]
   \/ new_calls w w' = [(humidify_cmd humidify hmx_file, TEMP_DIR);
                        (unsquashfs_cmd TEMP_DIR unsquashfs, TEMP_DIR)])
  /\ isdir (squashfs_root TEMP_DIR) (fs w') = false.
Proof.
  destruct w as [t0 c u g l cs f]. unfold new_calls.
  unfold_module. unfold_basic. simpl. intros H Hne.
  run_steps; norm_bool; simpl; destruct_and?; try done.
  all: try by (exfalso; eapply raw_filename_ne_squashfs_root).
  all: rewrite <- ?app_assoc, ?drop_length_app; simpl; auto.
Qed.


(** *** The resolvers when the file is not there yet (lines 81-99, 137-159) *)

(** [prereq_hmx] with the firmware not in place: when it returns, it has
    opened [source_url] once, the body served was a zip archive with a
    member [hdpvr.hmx], and the canonical file holds the bytes of that
    member; no command was run and the working directory is unchanged. *)
Theorem prereq_hmx_fetches (url : string) (w w' : world) (p : path) :
  prereq_hmx PROJECT_ROOT TEMP_DIR urlopen zip_members url w = (Return p, w') ->
  isfile (hmx_filename PROJECT_ROOT) (fs w) = false ->
  exists body ms data,
    urlopen url = Some body /\ zip_members body = Some ms
    /\ ms !! "hdpvr.hmx" = Some data
    /\ lookup_path (hmx_filename PROJECT_ROOT) (fs w') = Some (File data)
    /\ fetched w' = app (fetched w) [url]
    /\ calls w' = calls w /\ cwd w' = cwd w.
Proof.
  destruct w as [t0 c u g l cs f]. unfold_module. unfold_os. simpl.
  intros H Hf. rewrite Hf in H. simpl in H. rewrite hmx_dirname in H.
  run_all; norm_bool; simpl.
  all: match goal with
       | Hz : put (os_path_join TEMP_DIR _) (File ?b) _ = Some _,
         Hr : lookup_path (os_path_join TEMP_DIR _) _ = Some (File ?b') |- _ =>
           rewrite (lookup_put_same _ _ _ _ Hz) in Hr; injection Hr as <-
       end.
  all: match goal with
       | Hp : put (hmx_filename _) (File _) _ = Some _ |- _ =>
           pose proof (lookup_put_same _ _ _ _ Hp)
       end.
  all: eauto 12.
Qed.

(** [prereq_unsquashfs] with unsquashfs not built: unless an [os.chdir]
    fails, the commands of the run are the checkout in [PROJECT_ROOT], then
    [./configure] and [make] in the source directory, whatever each of them
    did; nothing is downloaded by the module itself. *)
Theorem prereq_unsquashfs_builds (w w' : world) (r : result path) :
  prereq_unsquashfs PROJECT_ROOT shell w = (r, w') ->
  isfile (unsquashfs_filename PROJECT_ROOT) (fs w) = false ->
  (forall p, r <> Raise (OSError p)) ->
  new_calls w w'
  = [("svn checkout http://firmware-mod-kit.googlecode.com/svn/ firmware-mod-kit-read-only",
      PROJECT_ROOT);
     ("./configure",
      os_path_join PROJECT_ROOT ["firmware-mod-kit-read-only"; "trunk"; "src"]);
     ("make",
      os_path_join PROJECT_ROOT ["firmware-mod-kit-read-only"; "trunk"; "src"])]
  /\ fetched w' = fetched w
  /\ (r = Return (unsquashfs_filename PROJECT_ROOT)
      \/ r = Raise (MissingPrerequisite (unsquashfs_filename PROJECT_ROOT))).
Proof.
  destruct w as [t0 c u g l cs f]. unfold new_calls.
  unfold_module. unfold_os. simpl. intros H Hf Hr. rewrite Hf in H. simpl in H.
  run_all; simpl; try (by edestruct Hr).
  all: rewrite <- ?app_assoc, ?drop_length_app; simpl; auto.
Qed.

(** *** The [__main__] block (lines 245-254) *)



(** *** [run_extraction] as a whole (lines 235-243) *)

Lemma extract_returns (hmx_file unsquashfs humidify extracted_root : path)
    (destroy : pyval) (w w' : world) (p : path) :
  extract TEMP_DIR shell hst hmx_file unsquashfs humidify extracted_root destroy w
    = (Return p, w') ->
  p = extracted_root /\ isdir extracted_root (fs w') = true /\ cwd w' = TEMP_DIR.
Proof.
  destruct w as [t0 c u g l cs f].
  unfold_module. unfold_basic. simpl. intros H.
  run_steps; norm_bool; simpl; done.
Qed.

(** When [run_extraction] returns a path, it is [EXTRACTED_ROOT], a
    directory at that moment, and the process is left in the scratch
    directory. *)
Theorem run_extraction_returns_extracted_root (w w' : world) (p : path) :
  run_extraction PROJECT_ROOT TEMP_DIR shell urlopen zip_members hst w
    = (Return (Some p), w') ->
  p = EXTRACTED_ROOT PROJECT_ROOT
  /\ isdir (EXTRACTED_ROOT PROJECT_ROOT) (fs w') = true
  /\ cwd w' = TEMP_DIR.
Proof.
  unfold run_extraction, try_except_MissingPrerequisite. unfold bind at 1.
  destruct (prereq_programs _ _ _ _ _ w) as [[[[h u] m]|e] w1].
  2:{ destruct e; unfold_basic; simpl; done. }
  unfold bind.
  destruct (extract _ _ _ _ _ _ _ _ w1) as [[q|e] w2] eqn:E.
  2:{ destruct e; unfold_basic; simpl; done. }
  unfold ret. intros [= <- <-].
  by destruct (extract_returns _ _ _ _ _ _ _ _ E) as (-> & Hd & Hc).
Qed.

(** [run_extraction] passes no [destroy]: with the prerequisites in place
    and [EXTRACTED_ROOT] there already, it ends in the [IOError] of
    [extract], which its handler does not catch, and the old directory is
    untouched. *)
Theorem run_extraction_refuses_existing (w w1 : world) (t : path * path * path) :
  prereq_programs PROJECT_ROOT TEMP_DIR shell urlopen zip_members w
    = (Return t, w1) ->
  isdir (EXTRACTED_ROOT PROJECT_ROOT) (fs w1) = true ->
  exists w',
    run_extraction PROJECT_ROOT TEMP_DIR shell urlopen zip_members hst w
    = (Raise (IOError ("Existing: " ++ path_str (EXTRACTED_ROOT PROJECT_ROOT))), w')
    /\ fs w' = fs w1.
Proof.
  intros Hp Hd. unfold run_extraction, try_except_MissingPrerequisite.
  unfold bind at 1. rewrite Hp. destruct t as [[h u] m]. unfold bind.
  rewrite (extract_refuses _ _ _ _ _ _ _ _ Hd). eexists. split; [reflexivity|].
  by destruct w1.
Qed.

End More.

(** ** The concrete installation: runs *)

(** C1, counterexample: the refusal of an existing [extracted_root] is
    not a [MissingPrerequisite]. *)
Lemma destination_exists_raises_IOError :
  isdir extracted_root0 (fs w_full) = true
  /\ (extract tmp0 shell_tools host_plain hmx0 unsquashfs0 humidify0 extracted_root0
        (PyBool false) w_full).1
     = Raise (IOError "Existing: /home/user/project/extracted_root")
  /\ forall what,
       (extract tmp0 shell_tools host_plain hmx0 unsquashfs0 humidify0 extracted_root0
          (PyBool false) w_full).1
       <> Raise (MissingPrerequisite what).
Proof. repeat split; [vm_compute; reflexivity..|vm_compute; discriminate]. Qed.

Lemma error_kinds_witness :
  (exists w',
     extract tmp0 shell_tools host_plain hmx0 unsquashfs0 humidify0 extracted_root0
       (PyBool false) w_full
     = (Raise (IOError ("Existing: " ++ path_str extracted_root0)), w'))
  /\ (exists w',
        prereq_humidify root0 w_no_humidify
        = (Raise (MissingPrerequisite (humidify_filename root0)), w'))
  /\ (exists w',
        prereq_unsquashfs root0 shell_noop w_unbuilt
        = (Raise (MissingPrerequisite (unsquashfs_filename root0)), w'))
  /\ (exists w',
        extract tmp0 shell_noop host_plain hmx0 unsquashfs0 humidify0 extracted_root0
          (PyBool false) w_fresh
        = (Raise (MissingPrerequisite (raw_filename tmp0)), w'))
  /\ (exists w',
        extract tmp0 shell_noop host_plain hmx0 unsquashfs0 humidify0 extracted_root0
          (PyBool false) w_raw_only
        = (Raise (MissingPrerequisite (squashfs_root tmp0)), w')).
Proof.
  pose proof (error_kinds root0 tmp0 shell_tools no_network no_zip host_plain
                default_source_url hmx0 unsquashfs0 humidify0 extracted_root0
                (PyBool false)) as (H1 & H2 & _).
  pose proof (error_kinds root0 tmp0 shell_noop no_network no_zip host_plain
                default_source_url hmx0 unsquashfs0 humidify0 extracted_root0
                (PyBool false)) as (_ & _ & H3 & H4 & H5 & _).
  split; [apply H1; vm_compute; reflexivity|].
  split; [apply H2; vm_compute; reflexivity|].
  split; [apply H3; vm_compute; reflexivity|].
  split; [apply (H4 w_fresh w_fresh); vm_compute; reflexivity|].
  apply (H5 w_raw_only
            (step1_unpack tmp0 shell_noop hmx0 humidify0 w_raw_only).2);
    vm_compute; reflexivity.
Defined.



Lemma extract_existing_destination_refused_witness :
  isdir extracted_root0 (fs w_full) = true
  /\ exists w',
       extract tmp0 shell_tools host_plain hmx0 unsquashfs0 humidify0 extracted_root0
         (PyBool false) w_full
       = (Raise (IOError ("Existing: " ++ path_str extracted_root0)), w')
       /\ calls w' = calls w_full /\ fs w' = fs w_full /\ cwd w' = cwd w_full.
Proof.
  split; [vm_compute; reflexivity|].
  apply (extract_existing_destination_refused tmp0 shell_tools host_plain).
  vm_compute; reflexivity.
Defined.

(** C4, counterexample: asked to extract to the scratch location of the
    tree itself, [extract] returns although the tree is still at that
    location after the move. *)
Lemma extract_returns_with_scratch_tree_in_place :
  (extract tmp0 shell_tools host_plain hmx0 unsquashfs0 humidify0 (squashfs_root tmp0)
     (PyBool false) w_fresh).1
  = Return (squashfs_root tmp0)
  /\ isdir (squashfs_root tmp0)
       (fs (extract tmp0 shell_tools host_plain hmx0 unsquashfs0 humidify0
              (squashfs_root tmp0) (PyBool false) w_fresh).2)
     = true.
Proof. split; vm_compute; reflexivity. Qed.

Lemma extract_checks_destination_only_witness :
  (step4_move tmp0 host_plain extracted_root0 w_resume).1 = Return extracted_root0.
Proof.
  rewrite (proj1 (extract_checks_destination_only tmp0 shell_tools host_plain hmx0
                    unsquashfs0 humidify0 extracted_root0 (PyBool false))
             w_resume
             (shutil_move host_plain (squashfs_root tmp0) extracted_root0
                (add_log (DEBUG, " " ++ path_str (squashfs_root tmp0) ++ " -> "
                                 ++ path_str extracted_root0)
                   (add_log (INFO, "STEP 4: move tree") w_resume))).2).
  - vm_compute; reflexivity.
  - vm_compute; reflexivity.
Defined.

Lemma extract_unpack_output_missing_witness :
  check_destination host_plain extracted_root0 (PyBool false) w_fresh = (Return tt, w_fresh)
  /\ exists w',
       extract tmp0 shell_noop host_plain hmx0 unsquashfs0 humidify0 extracted_root0
         (PyBool false) w_fresh
       = (Raise (MissingPrerequisite (raw_filename tmp0)), w')
       /\ calls w' = app (calls w_fresh) [(humidify_cmd humidify0 hmx0, tmp0)].
Proof.
  split; [vm_compute; reflexivity|].
  apply (extract_unpack_output_missing tmp0 shell_noop host_plain hmx0 unsquashfs0
           humidify0 extracted_root0 (PyBool false) w_fresh w_fresh);
    vm_compute; reflexivity.
Defined.

(** C6, at a failing input: humidify is missing, [prereq_humidify] raises
    [MissingPrerequisite], and [run_extraction] returns [None]
    to its caller. *)
Theorem run_extraction_returns_None_on_missing_humidify :
  (prereq_humidify root0 w_no_humidify).1 = Raise (MissingPrerequisite humidify0)
  /\ (run_extraction root0 tmp0 shell_tools no_network no_zip host_plain w_no_humidify).1
     = Return None.
Proof. split; vm_compute; reflexivity. Qed.

Lemma prereq_present_no_side_effect_witness :
  isfile (hmx_filename root0) (fs w_full) = true
  /\ exists w',
       prereq_hmx root0 tmp0 no_network no_zip default_source_url w_full
       = (Return (hmx_filename root0), w') /\ only_logged w_full w'.
Proof.
  split; [vm_compute; reflexivity|].
  apply (proj1 (prereq_present_no_side_effect root0 tmp0 shell_noop no_network
                  no_zip default_source_url w_full)).
  vm_compute; reflexivity.
Defined.

(** C8, at a failing input: the checkout leaves nothing, the second
    [os.chdir] raises, and the process stays in [PROJECT_ROOT], not in
    the directory it was in on entry. *)
Theorem prereq_unsquashfs_leaves_cwd_on_failed_checkout :
  cwd w_no_unsquashfs = tmp0
  /\ (prereq_unsquashfs root0 shell_noop w_no_unsquashfs).1
     = Raise (OSError (os_path_join root0
                         ["firmware-mod-kit-read-only"; "trunk"; "src"]))
  /\ cwd (prereq_unsquashfs root0 shell_noop w_no_unsquashfs).2 = root0.
Proof. repeat split; vm_compute; reflexivity. Qed.

(** C9, counterexample: the scratch directory is on another device and
    the tree has a directory that [shutil.copytree] cannot copy.  The old
    [extracted_root] is removed, the move raises, and a directory, the part
    that was copied, is at [extracted_root] after the failed run. *)
Lemma failed_move_leaves_directory :
  isdir extracted_root0 (fs w_full) = true
  /\ (extract tmp0 shell_firmware host_tmpfs hmx0 unsquashfs0 humidify0
        extracted_root0 (PyBool true) w_full).1
     = Raise (CopytreeError (squashfs_root tmp0) extracted_root0)
  /\ isdir extracted_root0
       (fs (extract tmp0 shell_firmware host_tmpfs hmx0 unsquashfs0 humidify0
              extracted_root0 (PyBool true) w_full).2)
     = true.
Proof. repeat split; vm_compute; reflexivity. Qed.

Lemma extract_destroy_removes_first_witness :
  isdir extracted_root0 (fs w_full) = true
  /\ (extract tmp0 shell_noop host_plain hmx0 unsquashfs0 humidify0 extracted_root0
        (PyBool true) w_full).1
     = Raise (MissingPrerequisite (raw_filename tmp0))
  /\ fs (extract tmp0 shell_noop host_plain hmx0 unsquashfs0 humidify0
            extracted_root0 (PyBool true) w_full).2
     = replay shell_noop
         (new_calls w_full
            (extract tmp0 shell_noop host_plain hmx0 unsquashfs0 humidify0
               extracted_root0 (PyBool true) w_full).2)
         (remove extracted_root0 (fs w_full)).
Proof.
  split; [vm_compute; reflexivity|]. split; [vm_compute; reflexivity|].
  destruct (proj2 (extract_destroy_removes_first tmp0 shell_noop host_plain hmx0
                     unsquashfs0 humidify0 extracted_root0 (PyBool true) w_full
                     eq_refl eq_refl)
              (check_destination host_plain extracted_root0 (PyBool true) w_full).2)
    as (Hfs & _ & _ & Hrun); [vm_compute; reflexivity|].
  rewrite <- Hfs.
  refine (proj1 (Hrun (MissingPrerequisite (raw_filename tmp0)) _ _) _).
  - vm_compute; reflexivity.
  - vm_compute. intros H. repeat (destruct H as [H|H]; try discriminate H). done.
Defined.

Lemma extract_leaves_cwd_in_scratch_witness :
  cwd w_fresh = root0
  /\ cwd (extract tmp0 shell_noop host_plain hmx0 unsquashfs0 humidify0
            extracted_root0 (PyBool false) w_fresh).2
     = tmp0
  /\ In (humidify_cmd humidify0 hmx0, tmp0)
       (new_calls w_fresh
          (extract tmp0 shell_noop host_plain hmx0 unsquashfs0 humidify0
             extracted_root0 (PyBool false) w_fresh).2).
Proof.
  split; [reflexivity|].
  destruct (proj2 (extract_leaves_cwd_in_scratch tmp0 shell_noop host_plain hmx0
                     unsquashfs0 humidify0 extracted_root0 (PyBool false) w_fresh
                     _ _ (surjective_pairing _))
              w_fresh) as (Hcwd & Hcall & _).
  - vm_compute; reflexivity.
  - right. vm_compute; reflexivity.
  - split; [exact Hcwd|]. apply Hcall. vm_compute; reflexivity.
Defined.

Lemma run_extraction_returns_None_after_logging_witness :
  exists what,
    last (log (run_extraction root0 tmp0 shell_tools no_network no_zip host_plain
                 w_no_humidify).2)
    = Some (ERROR, "Missing prerequisite: " ++ path_str what).
Proof.
  refine (proj2 (run_extraction_returns_None_after_logging root0 tmp0 shell_tools no_network no_zip host_plain w_no_humidify _ _ _) _).
  - apply surjective_pairing.
  - vm_compute; reflexivity.
Defined.

Lemma prereq_unsquashfs_restores_cwd_witness :
  (prereq_unsquashfs root0 shell_noop w_unbuilt).1
  = Raise (MissingPrerequisite unsquashfs0)
  /\ cwd (prereq_unsquashfs root0 shell_noop w_unbuilt).2 = cwd w_unbuilt.
Proof.
  split; [vm_compute; reflexivity|].
  refine (prereq_unsquashfs_restores_cwd root0 shell_noop w_unbuilt _ _ _ _).
  - apply surjective_pairing.
  - intros p H. vm_compute in H. discriminate H.
Defined.

Lemma prereq_humidify_only_logs_witness :
  only_logged w_no_humidify (prereq_humidify root0 w_no_humidify).2.
Proof.
  refine (proj1 (prereq_humidify_only_logs root0 w_no_humidify _ _ _)).
  apply surjective_pairing.
Defined.

Lemma prereq_programs_fails_fast_witness :
  exists w',
    prereq_programs root0 tmp0 shell_tools no_network no_zip w_no_hmx
    = (Raise (URLError default_source_url), w')
    /\ calls w' = calls w_no_hmx /\ cwd w' = cwd w_no_hmx
    /\ fs w' = fs (prereq_hmx root0 tmp0 no_network no_zip default_source_url
                     w_no_hmx).2.
Proof.
  apply (prereq_programs_fails_fast root0 tmp0 shell_tools no_network no_zip
           w_no_hmx).
  vm_compute; reflexivity.
Defined.

Lemma prereq_programs_returns_witness :
  isfile (unsquashfs_filename root0)
    (fs (prereq_programs root0 tmp0 shell_tools no_network no_zip w_full).2) = true
  /\ isfile (humidify_filename root0)
       (fs (prereq_programs root0 tmp0 shell_tools no_network no_zip w_full).2) = true.
Proof.
  refine (proj2 (proj2 (proj2 (prereq_programs_returns root0 tmp0 shell_tools
                                 no_network no_zip w_full _ hmx0 unsquashfs0
                                 humidify0 _)))).
  vm_compute; reflexivity.
Defined.

Lemma prereq_programs_logs_and_reraises_witness :
  last (log (prereq_programs root0 tmp0 shell_tools no_network no_zip
               w_no_humidify).2)
  = Some (ERROR, "Missing prerequisite: " ++ path_str humidify0).
Proof.
  refine (proj2 (prereq_programs_logs_and_reraises root0 tmp0 shell_tools
                   no_network no_zip w_no_humidify _ humidify0 _)).
  vm_compute; reflexivity.
Defined.

Lemma extract_returns_trace_witness :
  fetched (extract tmp0 shell_tools host_plain hmx0 unsquashfs0 humidify0 extracted_root0
             (PyBool false) w_fresh).2
  = fetched w_fresh.
Proof.
  refine (proj2 (extract_returns_trace tmp0 shell_tools host_plain hmx0 unsquashfs0 humidify0
                   extracted_root0 (PyBool false) w_fresh _ extracted_root0 _)).
  vm_compute; reflexivity.
Defined.

Lemma extract_refuses_iff_witness :
  exists w',
    extract tmp0 shell_tools host_plain hmx0 unsquashfs0 humidify0 extracted_root0
      (PyBool false) w_full
    = (Raise (IOError ("Existing: " ++ path_str extracted_root0)), w').
Proof.
  apply (proj2 (extract_refuses_iff tmp0 shell_tools host_plain hmx0 unsquashfs0 humidify0
                  extracted_root0 (PyBool false) w_full)).
  split; [vm_compute; reflexivity|reflexivity].
Defined.

Lemma extract_unsquashfs_output_missing_witness :
  isdir (squashfs_root tmp0)
    (fs (extract tmp0 shell_noop host_plain hmx0 unsquashfs0 humidify0 extracted_root0
           (PyBool false) w_raw_only).2)
  = false.
Proof.
  refine (proj2 (extract_unsquashfs_output_missing tmp0 shell_noop host_plain hmx0
                   unsquashfs0 humidify0 extracted_root0 (PyBool false)
                   w_raw_only _ _ _)).
  - vm_compute; reflexivity.
  - discriminate.
Defined.


Lemma prereq_hmx_fetches_witness :
  exists body ms data,
    one_archive default_source_url = Some body /\ zip_hmx body = Some ms
    /\ ms !! "hdpvr.hmx" = Some data
    /\ lookup_path (hmx_filename root0)
         (fs (prereq_hmx root0 tmp0 one_archive zip_hmx default_source_url
                w_no_hmx).2) = Some (File data)
    /\ fetched (prereq_hmx root0 tmp0 one_archive zip_hmx default_source_url
                  w_no_hmx).2 = app (fetched w_no_hmx) [default_source_url]
    /\ calls (prereq_hmx root0 tmp0 one_archive zip_hmx default_source_url
                w_no_hmx).2 = calls w_no_hmx
    /\ cwd (prereq_hmx root0 tmp0 one_archive zip_hmx default_source_url
              w_no_hmx).2 = cwd w_no_hmx.
Proof.
  refine (prereq_hmx_fetches root0 tmp0 one_archive zip_hmx default_source_url
            w_no_hmx _ (hmx_filename root0) _ _).
  - vm_compute; reflexivity.
  - vm_compute; reflexivity.
Defined.

Lemma prereq_unsquashfs_builds_witness :
  fetched (prereq_unsquashfs root0 shell_noop w_unbuilt).2 = fetched w_unbuilt.
Proof.
  refine (proj1 (proj2 (prereq_unsquashfs_builds root0 shell_noop w_unbuilt _ _
                          _ _ _))).
  - apply surjective_pairing.
  - vm_compute; reflexivity.
  - intros p H. vm_compute in H. discriminate H.
Defined.


(** The removal is best effort: on a host where the user cannot delete
    what [sudo unsquashfs] made, and the move has failed, [main] returns
    with the scratch directory still there. *)
Lemma main_leaves_undeletable_scratch :
  (main root0 tmp0 shell_firmware no_network no_zip host_tmpfs w_fresh).1
  = Return tt
  /\ isdir tmp0
       (fs (main root0 tmp0 shell_firmware no_network no_zip host_tmpfs w_fresh).2)
     = true.
Proof. split; vm_compute; reflexivity. Qed.

Lemma run_extraction_returns_extracted_root_witness :
  isdir (EXTRACTED_ROOT root0)
    (fs (run_extraction root0 tmp0 shell_tools no_network no_zip host_plain w_fresh).2) = true
  /\ cwd (run_extraction root0 tmp0 shell_tools no_network no_zip host_plain w_fresh).2 = tmp0.
Proof.
  refine (proj2 (run_extraction_returns_extracted_root root0 tmp0 shell_tools no_network no_zip host_plain w_fresh _ extracted_root0 _)).
  vm_compute; reflexivity.
Defined.

Lemma run_extraction_refuses_existing_witness :
  exists w',
    run_extraction root0 tmp0 shell_tools no_network no_zip host_plain w_full
    = (Raise (IOError ("Existing: " ++ path_str (EXTRACTED_ROOT root0))), w')
    /\ fs w' = fs (prereq_programs root0 tmp0 shell_tools no_network no_zip w_full).2.
Proof.
  refine (run_extraction_refuses_existing root0 tmp0 shell_tools no_network no_zip host_plain
            w_full _ (hmx0, unsquashfs0, humidify0) _ _).
  - vm_compute; reflexivity.
  - vm_compute; reflexivity.
Defined.
